(** * mdtf_test_data: synthetic data sets and grid coarsening

    A shallow embedding of [mdtf_data_decimator/coarseners.py] and
    [mdtf_data_decimator/synthetic.py], and of [create_output_dirs] of
    [mdtf_test_data/synthetic/synthetic_setup.py].

    Conventions of the embedding.
    - Python [int]s are [Z].
    - Python [float]s are exact rationals ([Q]); binary64 rounding is not
      part of the model.  The one non-finite value the program can build,
      [180.0 / np.floor(...)] with a zero divisor, is kept as [PosInf].
    - Python exceptions are values of [exn]; a function that may raise
      returns a [result].
    - [warnings.warn] appends to the list of emitted warnings.
    - [xarray.Dataset] is a finite map from variable names to variables;
      the [encoding] of a variable is a finite map as well.  A
      [DataArray] built from coordinates checks their lengths against the
      shape of the data, as xarray does.
    - numpy's global generator is a state with a seeding function and one
      standard-normal draw; [np.random.normal] is [loc + scale * draw].
    - A call with keyword arguments is bound against the parameter list of
      the callee before its body runs.
    - xESMF is a parameter of [regrid_lat_lon_dataset]: building a regridder
      and applying it to a variable may each raise.
    - The file system is a parameter of [create_output_dirs]:
      [os.path.exists] is a test on it, and [os.makedirs] returns or raises
      and leaves a file system behind. *)

From Stdlib Require Import ZArith QArith Qround Lqa Lia List String Bool Sorted.
From stdpp Require Import gmap strings list.

Local Open Scope string_scope.
Local Open Scope list_scope.
Local Open Scope Z_scope.

(** ** Python and numpy preliminaries *)

Inductive exn : Type :=
| TypeError (msg : string)
| ValueError (msg : string)
| OverflowError (msg : string)
| ZeroDivisionError (msg : string)
| AssertionError (msg : string)
| KeyError (key : string)
| UnboundLocalError (name : string).

Inductive result (A : Type) : Type :=
| Ok (a : A)
| Raise (e : exn).
Arguments Ok {A} a.
Arguments Raise {A} e.

Definition is_ok {A} (r : result A) : bool :=
  match r with Ok _ => true | Raise _ => false end.

(** Floats: exact rationals and the positive infinity. *)
Inductive xfloat : Type :=
| Finite (q : Q)
| PosInf.

(** [warnings.warn(f"... {value}")]: the fixed text and the formatted value. *)
Record warning : Type := Warn { w_text : string; w_value : xfloat }.

(** Computations that emit warnings and may raise: the warnings emitted so
    far and the outcome. *)
Definition W (A : Type) : Type := (list warning * result A)%type.

Definition w_ret {A} (a : A) : W A := ([], Ok a).
Definition w_raise {A} (e : exn) : W A := ([], Raise e).
Definition w_warn (w : warning) : W unit := ([w], Ok tt).
Definition w_lift {A} (r : result A) : W A := ([], r).
Definition w_bind {A B} (m : W A) (k : A -> W B) : W B :=
  match m with
  | (ws, Ok a) => let '(ws', r) := k a in (ws ++ ws', r)
  | (ws, Raise e) => (ws, Raise e)
  end.

Declare Scope w_scope.
Delimit Scope w_scope with W.
Notation "x <~ m ;; k" := (w_bind m (fun x => k))
  (at level 100, m at next level, right associativity) : w_scope.
Notation "m ;;; k" := (w_bind m (fun _ => k))
  (at level 100, right associativity) : w_scope.

(** Python's [a % b] on floats: the remainder has the sign of [b];
    a zero divisor raises. *)
Definition py_mod (a b : Q) : result Q :=
  if Qeq_bool b 0 then Raise (ZeroDivisionError "float modulo")
  else Ok (a - b * inject_Z (Qfloor (a / b)))%Q.

(** [np.floor] of a finite float. *)
Definition np_floor (x : Q) : Q := inject_Z (Qfloor x).

(** [a / b] where [b] is a numpy scalar and [a] a positive constant:
    numpy divides by zero without raising and yields [inf]. *)
Definition np_divide (a b : Q) : xfloat :=
  if Qeq_bool b 0 then PosInf else Finite (a / b)%Q.

Definition xadd (a : Q) (x : xfloat) : xfloat :=
  match x with Finite q => Finite (a + q)%Q | PosInf => PosInf end.

Definition xhalf (x : xfloat) : xfloat :=
  match x with Finite q => Finite (q / 2)%Q | PosInf => PosInf end.

(** [np.arange(start, stop, step)] on floats.  The length is
    [ceil((stop - start) / step)]; the first two entries are [start] and
    [start + step], and entry [i] is [start + i * delta] with [delta] the
    difference of the first two. *)
Definition arange_length (start stop step : Q) : nat :=
  Z.to_nat (Qceiling ((stop - start) / step)).

Definition arange_fill (start step : Q) (len : nat) : list Q :=
  let next := (start + step)%Q in
  let delta := (next - start)%Q in
  map (fun i : nat => (start + inject_Z (Z.of_nat i) * delta)%Q) (seq 0 len).

Definition np_arange (start : xfloat) (stop : Q) (step : xfloat)
  : result (list Q) :=
  match start, step with
  | Finite a, Finite d =>
      if Qeq_bool d 0 then Raise (ZeroDivisionError "float division by zero")
      else Ok (arange_fill a d (arange_length a stop d))
  | Finite _, PosInf => Ok []
  | PosInf, Finite _ =>
      Raise (OverflowError "arange: overflow while computing length")
  | PosInf, PosInf => Raise (ValueError "arange: cannot compute length")
  end.

(** ** xarray data model *)

Record DatetimeNoLeap : Type :=
  mkDate { year : Z; month : Z; day : Z }.

Inductive np_dtype : Type :=
| dt_bool
| dt_int8 | dt_int16 | dt_int32 | dt_int64
| dt_uint8 | dt_uint16 | dt_uint32 | dt_uint64
| dt_float16 | dt_float32 | dt_float64
| dt_complex64 | dt_complex128
| dt_object
| dt_datetime64
| dt_timedelta64.

(** [str(dtype)]. *)
Definition dtype_str (d : np_dtype) : string :=
  match d with
  | dt_bool => "bool"
  | dt_int8 => "int8" | dt_int16 => "int16"
  | dt_int32 => "int32" | dt_int64 => "int64"
  | dt_uint8 => "uint8" | dt_uint16 => "uint16"
  | dt_uint32 => "uint32" | dt_uint64 => "uint64"
  | dt_float16 => "float16" | dt_float32 => "float32"
  | dt_float64 => "float64"
  | dt_complex64 => "complex64" | dt_complex128 => "complex128"
  | dt_object => "object"
  | dt_datetime64 => "datetime64[ns]"
  | dt_timedelta64 => "timedelta64[ns]"
  end.

(** The kind of a dtype: floating point, or signed or unsigned integer. *)
Definition is_float_dtype (d : np_dtype) : bool :=
  match d with
  | dt_float16 | dt_float32 | dt_float64 => true
  | _ => false
  end.

Definition is_int_dtype (d : np_dtype) : bool :=
  match d with
  | dt_int8 | dt_int16 | dt_int32 | dt_int64
  | dt_uint8 | dt_uint16 | dt_uint32 | dt_uint64 => true
  | _ => false
  end.

(** An n-dimensional array of floats: its shape and its entries in row-major
    order. *)
Record ndarray : Type := mkArray { shape : list nat; flat : list Q }.

Inductive payload : Type :=
| PFloat (v : list Q)
| PInt (v : list Z)
| PTime (v : list DatetimeNoLeap)
| PBounds (v : list (DatetimeNoLeap * DatetimeNoLeap))
| PArray (a : ndarray).

(** Values stored in an [encoding] dictionary. *)
Inductive enc_value : Type :=
| EStr (s : string)
| EFloat (q : Q)
| EInt (z : Z)
| ENone.

Record DataVar : Type := mkVar {
  dims : list string;
  dtype : np_dtype;
  var_data : payload;
  attrs : list (string * string);
  encoding : gmap string enc_value
}.

Record Dataset : Type := mkDataset {
  variables : gmap string DataVar;
  ds_attrs : list (string * string)
}.

Definition ds_set (name : string) (v : DataVar) (ds : Dataset) : Dataset :=
  {| variables := <[name := v]> (variables ds); ds_attrs := ds_attrs ds |}.

Definition ds_get (name : string) (ds : Dataset) : result DataVar :=
  match variables ds !! name with
  | Some v => Ok v
  | None => Raise (KeyError name)
  end.

(** Length of the leading axis, [len(ds[name])]. *)
Definition payload_len (p : payload) : nat :=
  match p with
  | PFloat v => length v
  | PInt v => length v
  | PTime v => length v
  | PBounds v => length v
  | PArray a => hd 0%nat (shape a)
  end.

Definition floats_of (p : payload) : list Q :=
  match p with PFloat v => v | _ => [] end.

(** ** coarseners.py *)

Module Coarseners.

Local Open Scope W.

Definition float_var (dim : string) (v : list Q) : DataVar :=
  {| dims := [dim]; dtype := dt_float64; var_data := PFloat v;
     attrs := []; encoding := ∅ |}.

Definition dlat_text : string :=
  "180 degrees does not divide evenly by dlat. Adjusting dlat to ".
Definition dlon_text : string :=
  "360 degrees does not divide evenly by dlon. Adjusting dlon to ".

(** [construct_rect_grid(dlon, dlat)]. *)
Definition construct_rect_grid (dlon dlat : Q) : W Dataset :=
  r <~ w_lift (py_mod 180 dlat) ;;
  dlat <~ (if negb (Qeq_bool r 0) then
             let dlat := np_divide 180 (np_floor (180 / dlat)) in
             w_warn (Warn dlat_text dlat) ;;; w_ret dlat
           else w_ret (Finite dlat)) ;;
  r <~ w_lift (py_mod 360 dlon) ;;
  dlon <~ (if negb (Qeq_bool r 0) then
             let dlon := np_divide 360 (np_floor (360 / dlon)) in
             w_warn (Warn dlon_text dlon) ;;; w_ret dlon
           else w_ret (Finite dlon)) ;;
  lat <~ w_lift (np_arange (xadd (-90) (xhalf dlat)) 90 dlat) ;;
  lon <~ w_lift (np_arange (xadd 0 (xhalf dlon)) 360 dlon) ;;
  w_ret {| variables := <["lon" := float_var "lon" lon]>
                          (<["lat" := float_var "lat" lat]> ∅);
           ds_attrs := [] |}.

End Coarseners.

(** ** Python lists, slices and calls *)

(** A slice bound [i] of a list of length [len]: negative bounds count
    from the end, and every bound is clamped to the list. *)
Definition py_index (len : nat) (i : Z) : nat :=
  if i <? 0 then Z.to_nat (Z.max 0 (i + Z.of_nat len))
  else Z.to_nat (Z.min i (Z.of_nat len)).

(** [l[start:stop]]. *)
Definition py_slice {A} (start stop : Z) (l : list A) : list A :=
  let a := py_index (length l) start in
  let b := py_index (length l) stop in
  firstn (b - a) (skipn a l).

(** [l[start::]]. *)
Definition py_slice_from {A} (start : Z) (l : list A) : list A :=
  skipn (py_index (length l) start) l.

(** [l * n]. *)
Definition py_list_mul {A} (l : list A) (n : Z) : list A :=
  concat (repeat l (Z.to_nat n)).

(** [range(n)]. *)
Definition py_range (n : Z) : list Z :=
  map Z.of_nat (seq 0 (Z.to_nat n)).

(** [np.arange(start, stop)] on integers. *)
Definition np_arange_int (start stop : Z) : list Z :=
  map (fun i : nat => start + Z.of_nat i) (seq 0 (Z.to_nat (stop - start))).

(** [zip(a, b, c)]. *)
Definition zip3 {A B C} (a : list A) (b : list B) (c : list C)
  : list (A * B * C) :=
  combine (combine a b) c.

Inductive pyval : Type :=
| VFloat (q : Q)
| VInt (z : Z)
| VBool (b : bool)
| VStr (s : string).

Definition has_name (k : string) (names : list string) : bool :=
  existsb (String.eqb k) names.

Fixpoint kw_lookup (k : string) (kwargs : list (string * pyval))
  : option pyval :=
  match kwargs with
  | [] => None
  | (k', v) :: rest => if String.eqb k k' then Some v else kw_lookup k rest
  end.

Fixpoint bind_rest (fname : string) (params : list string)
  (kwargs : list (string * pyval)) : result (list pyval) :=
  match params with
  | [] => Ok []
  | p :: ps =>
      match kw_lookup p kwargs with
      | None =>
          Raise (TypeError
                   (fname ++ "() missing required argument: '" ++ p ++ "'"))
      | Some v =>
          match bind_rest fname ps kwargs with
          | Ok vs => Ok (v :: vs)
          | Raise e => Raise e
          end
      end
  end.

(** Binding the positional and keyword arguments of a call to the parameters
    of [def f(p1, ..., pn)]: the values in parameter order, or the
    [TypeError] Python raises before the body runs. *)
Definition py_bind_args (fname : string) (params : list string)
  (args : list pyval) (kwargs : list (string * pyval))
  : result (list pyval) :=
  if (length params <? length args)%nat then
    Raise (TypeError (fname ++ "() takes too many positional arguments"))
  else
    match find (fun kv => negb (has_name (fst kv) params)) kwargs with
    | Some (k, _) =>
        Raise (TypeError
                 (fname ++ "() got an unexpected keyword argument '"
                    ++ k ++ "'"))
    | None =>
        match find (fun kv => has_name (fst kv)
                                (firstn (length args) params)) kwargs with
        | Some (k, _) =>
            Raise (TypeError
                     (fname ++ "() got multiple values for argument '"
                        ++ k ++ "'"))
        | None =>
            match bind_rest fname (skipn (length args) params) kwargs with
            | Ok vs => Ok (args ++ vs)
            | Raise e => Raise e
            end
        end
    end.

(** ** xarray.DataArray *)

Definition payload_shape (p : payload) : list nat :=
  match p with
  | PFloat v => [length v]
  | PInt v => [length v]
  | PTime v => [length v]
  | PBounds v => match v with [] => [0%nat] | _ => [length v; 2%nat] end
  | PArray a => shape a
  end.

(** A [DataArray]: the variable itself and the coordinate variables it
    carries along. *)
Record DataArray : Type := mkDataArray {
  da_var : DataVar;
  da_coords : list (string * DataVar)
}.

Definition index_var (dim : string) (dt : np_dtype) (p : payload)
  (a : list (string * string)) : DataVar :=
  {| dims := [dim]; dtype := dt; var_data := p; attrs := a; encoding := ∅ |}.

(** [xr.DataArray(data, coords=(c1, ..., cn), attrs=attrs)]: the axes of
    [data] must be as many and as long as the coordinates. *)
Definition new_DataArray (p : payload) (dt : np_dtype)
  (coords : list (string * DataVar)) (a : list (string * string))
  : result DataArray :=
  if decide (payload_shape p = map (fun c => payload_len (var_data (snd c))) coords)
  then Ok {| da_var := {| dims := map fst coords; dtype := dt; var_data := p;
                          attrs := a; encoding := ∅ |};
             da_coords := coords |}
  else Raise (ValueError "coords do not match the shape of the data").

(** [ds[name] = da]: the variable and the coordinates it brings. *)
Definition ds_assign (name : string) (da : DataArray) (ds : Dataset)
  : Dataset :=
  ds_set name (da_var da)
    (foldr (fun c acc =>
              match variables acc !! fst c with
              | Some _ => acc
              | None => ds_set (fst c) (snd c) acc
              end) ds (da_coords da)).

(** [ds.drop(name)]. *)
Definition ds_drop (name : string) (ds : Dataset) : result Dataset :=
  match variables ds !! name with
  | Some _ => Ok {| variables := delete name (variables ds);
                    ds_attrs := ds_attrs ds |}
  | None => Raise (ValueError "variable not found in the dataset")
  end.

(** [a.squeeze()] drops the axes of length one; the entries stay. *)
Definition squeeze (a : ndarray) : ndarray :=
  {| shape := List.filter (fun n => negb (n =? 1)%nat) (shape a);
     flat := flat a |}.

(** [np.array([a1, ..., an])] of arrays of one shape. *)
Definition np_stack (l : list ndarray) : ndarray :=
  match l with
  | [] => {| shape := [0%nat]; flat := [] |}
  | a :: _ => {| shape := length l :: shape a; flat := concat (map flat l) |}
  end.

(** The slices of an array along its first axis, [[a[0], ..., a[n-1]]]. *)
Definition time_slices (a : ndarray) : list ndarray :=
  match shape a with
  | [] => []
  | n :: rest =>
      let sz := fold_right Nat.mul 1%nat rest in
      map (fun i : nat =>
             {| shape := rest;
                flat := firstn sz (skipn (i * sz) (flat a)) |})
          (seq 0 n)
  end.

(** ** synthetic.py *)

Module Synthetic.

Import Coarseners.

Definition times_of (da : DataArray) : list DatetimeNoLeap :=
  match var_data (da_var da) with PTime v => v | _ => [] end.

Definition bounds_of (da : DataArray)
  : list (DatetimeNoLeap * DatetimeNoLeap) :=
  match var_data (da_var da) with PBounds v => v | _ => [] end.

Definition values_of (da : DataArray) : list Q :=
  floats_of (var_data (da_var da)).

Definition mk_datetime (x : Z * Z * Z) : DatetimeNoLeap :=
  let '(y, m, d) := x in mkDate y m d.

(** [generate_monthly_time_axis(startyear, nyears, format="ncar")]. *)
Definition generate_monthly_time_axis (startyear nyears : Z) (format : string)
  : result (DataArray * DataArray) :=
  let ncar := String.eqb format "ncar" in
  let nyears := if ncar then nyears + 1 else nyears in
  let years := np_arange_int startyear (startyear + nyears) in
  let years := flat_map (fun year => map (fun _ => year) (py_range 12)) years in
  let months := py_list_mul (np_arange_int 1 13) nyears in
  let days := if ncar then 1 else 15 in
  let days := py_list_mul [days] (Z.of_nat (length months)) in
  let timetuple := zip3 years months days in
  let times := map mk_datetime timetuple in
  let times := if ncar then py_slice 1 (-11) times else times in
  let time_index := index_var "time" dt_object (PTime times) [] in
  match new_DataArray (PTime times) dt_object [("time", time_index)]
          [("long_name", "time"); ("bounds", "time_bnds")] with
  | Raise e => Raise e
  | Ok time =>
      let days := py_list_mul [1] (Z.of_nat (length months)) in
      let timetuple := zip3 years months days in
      let bounds := map mk_datetime timetuple in
      let bounds := bounds ++ [mkDate (startyear + nyears) 1 1] in
      let bounds := combine (py_slice 0 (-1) bounds) (py_slice_from 1 bounds) in
      let bounds := if ncar then py_slice 0 (-12) bounds else bounds in
      let nbnds := index_var "nbnds" dt_int64 (PInt [0; 1]) [] in
      match new_DataArray (PBounds bounds) dt_object
              [("time", da_var time); ("nbnds", nbnds)]
              [("long_name", "time interval endpoints")] with
      | Raise e => Raise e
      | Ok time_bnds => Ok (time, time_bnds)
      end
  end.

(** Days per month of the 365-day calendar. *)
Definition noleap_days_in_month (m : Z) : Z :=
  match m with
  | 1 => 31 | 2 => 28 | 3 => 31 | 4 => 30 | 5 => 31 | 6 => 30
  | 7 => 31 | 8 => 31 | 9 => 30 | 10 => 31 | 11 => 30 | 12 => 31
  | _ => 0
  end.

(** A date of the no-leap calendar. *)
Definition valid_noleap (d : DatetimeNoLeap) : Prop :=
  1 <= month d <= 12 /\ 1 <= day d <= noleap_days_in_month (month d).

Definition lev_values : list Q :=
  [ 2.501651; 4.187496; 6.66766; 10.099201; 14.551163; 19.943806;
    26.002806; 32.250471; 38.050216; 42.70557; 46.240154; 49.511782;
    53.014888; 56.765857; 60.782212; 65.082732; 69.687527; 74.618127;
    79.897583; 85.550576; 91.603545; 98.084766; 105.024556; 112.455371;
    120.411924; 128.931421; 138.053706; 147.821421; 158.280234; 169.479033;
    181.470176; 194.309746; 208.057754; 222.778457; 238.540693; 255.418164;
    273.489746; 292.839941; 313.559268; 335.744541; 359.499453; 384.935117;
    412.17043; 441.332715; 472.55834; 505.993262; 541.793789; 580.127324;
    621.173066; 665.12291; 712.182383; 762.571445; 816.525625; 858.699883;
    886.368125; 912.162773; 935.873203; 957.301758; 976.266953;
    992.556094 ]%Q.

Definition hyam_values : list Q :=
  [ 2.501651e-03; 4.187496e-03; 6.667660e-03; 1.009920e-02; 1.455116e-02;
    1.994381e-02; 2.600281e-02; 3.225047e-02; 3.805022e-02; 4.270557e-02;
    4.624015e-02; 4.951178e-02; 5.301489e-02; 5.676586e-02; 6.078221e-02;
    6.508273e-02; 6.968753e-02; 7.461813e-02; 7.989758e-02; 8.555058e-02;
    9.160354e-02; 9.808477e-02; 1.050246e-01; 1.124554e-01; 1.204119e-01;
    1.289314e-01; 1.380537e-01; 1.478214e-01; 1.582802e-01; 1.694790e-01;
    1.746796e-01; 1.726401e-01; 1.696388e-01; 1.664251e-01; 1.629841e-01;
    1.592996e-01; 1.553543e-01; 1.511300e-01; 1.466068e-01; 1.417635e-01;
    1.365776e-01; 1.310247e-01; 1.250790e-01; 1.187125e-01; 1.118957e-01;
    1.045965e-01; 9.678086e-02; 8.841227e-02; 7.945159e-02; 6.985690e-02;
    5.958334e-02; 4.858288e-02; 3.680412e-02; 2.759706e-02; 2.155681e-02;
    1.592557e-02; 1.074934e-02; 6.071232e-03; 1.930966e-03;
    -1.648308e-09 ]%Q.

Definition hybm_values : list Q :=
  [ 0.0; 0.0; 0.0; 0.0; 0.0; 0.0; 0.0; 0.0; 0.0; 0.0;
    0.0; 0.0; 0.0; 0.0; 0.0; 0.0; 0.0; 0.0; 0.0; 0.0;
    0.0; 0.0; 0.0; 0.0; 0.0; 0.0; 0.0; 0.0; 0.0; 0.0;
    0.006791; 0.02167; 0.038419; 0.056353; 0.075557; 0.096119; 0.118135;
    0.14171; 0.166953; 0.193981; 0.222922; 0.25391; 0.287091; 0.32262;
    0.360663; 0.401397; 0.445013; 0.491715; 0.541721; 0.595266; 0.652599;
    0.713989; 0.779722; 0.831103; 0.864811; 0.896237; 0.925124; 0.951231;
    0.974336; 0.992556 ]%Q.

Definition lev_attrs : list (string * string) :=
  [ ("long_name", "hybrid level at midpoints (1000*(A+B))");
    ("units", "level");
    ("positive", "down");
    ("standard_name", "atmosphere_hybrid_sigma_pressure_coordinate");
    ("formula_terms", "a: hyam b: hybm p0: P0 ps: PS") ].

(** [ncar_hybrid_coord()]. *)
Definition ncar_hybrid_coord : result (DataArray * DataArray * DataArray) :=
  let lev_index := index_var "lev" dt_float64 (PFloat lev_values) [] in
  match new_DataArray (PFloat lev_values) dt_float64 [("lev", lev_index)]
          lev_attrs with
  | Raise e => Raise e
  | Ok lev =>
      match new_DataArray (PFloat hyam_values) dt_float64
              [("lev", da_var lev)]
              [("long_name", "hybrid A coefficient at layer midpoints")] with
      | Raise e => Raise e
      | Ok hyam =>
          match new_DataArray (PFloat hybm_values) dt_float64
                  [("lev", da_var lev)]
                  [("long_name", "hybrid B coefficient at layer midpoints")]
          with
          | Raise e => Raise e
          | Ok hybm => Ok (lev, hyam, hybm)
          end
      end
  end.

(** [needle in hay] on strings. *)
Fixpoint str_contains (needle hay : string) : bool :=
  String.prefix needle hay
  || match hay with
     | EmptyString => false
     | String _ rest => str_contains needle rest
     end.

(** [dset[var].encoding[key] = v]. *)
Definition set_encoding (var key : string) (v : enc_value) (ds : Dataset)
  : Dataset :=
  {| variables :=
       alter (fun x => {| dims := dims x; dtype := dtype x; var_data := var_data x;
                          attrs := attrs x;
                          encoding := <[key := v]> (encoding x) |})
             var (variables ds);
     ds_attrs := ds_attrs ds |}.

Definition dtype_of (var : string) (ds : Dataset) : string :=
  match variables ds !! var with
  | Some x => dtype_str (dtype x)
  | None => ""
  end.

(** One turn of the loop of [write_to_netcdf]. *)
Definition encode_variable (ds : Dataset) (var : string) : Dataset :=
  if String.eqb var "time" then
    set_encoding var "units" (EStr "days since 1975-01-01")
      (set_encoding var "dtype" (EStr "i4") ds)
  else if String.eqb var "time_bnds" then
    set_encoding var "units" (EStr "days since 1975-01-01")
      (set_encoding var "dtype" (EStr "i4") ds)
  else if String.eqb var "date" then
    set_encoding var "dtype" (EStr "i4") ds
  else if str_contains "float" (dtype_of var ds) then
    set_encoding var "_FillValue" (EFloat 1.0e20) ds
  else if str_contains "int" (dtype_of var ds) then
    set_encoding var "_FillValue" (EInt (-999)) ds
  else
    set_encoding var "_FillValue" ENone ds.

(** The names of the variables, [list(dset.variables)]. *)
Definition variable_names (ds : Dataset) : list string :=
  map fst (map_to_list (variables ds)).

(** [write_to_netcdf(dset_out, outfile)]: the data set as it is after the
    loop, and the file system with the data set stored under [outfile]. *)
Definition write_to_netcdf (dset_out : Dataset) (outfile : string)
  (fs : gmap string Dataset) : Dataset * gmap string Dataset :=
  let dset_out := foldl encode_variable dset_out (variable_names dset_out) in
  (dset_out, <[outfile := dset_out]> fs).

(** [int(x.strftime("%Y%m%d"))]. *)
Definition date_int (x : DatetimeNoLeap) : Z :=
  if 0 <=? year x then year x * 10000 + month x * 100 + day x
  else - ((- year x) * 10000 + month x * 100 + day x).

(** The [stats] argument: one [(mean, stddev)] pair or a list of pairs. *)
Inductive stats_arg : Type :=
| StatsPair (mean stddev : Q)
| StatsList (l : list (Q * Q)).

(** [[stats] if not isinstance(stats, list) else stats]. *)
Definition stats_list (stats : stats_arg) : list (Q * Q) :=
  match stats with
  | StatsPair m s => [(m, s)]
  | StatsList l => l
  end.

Definition construct_rect_grid_params : list string := ["dlon"; "dlat"].

(** A call of [construct_rect_grid] with positional and keyword arguments. *)
Definition call_construct_rect_grid (args : list pyval)
  (kwargs : list (string * pyval)) : W Dataset :=
  match py_bind_args "construct_rect_grid" construct_rect_grid_params
          args kwargs with
  | Raise e => w_raise e
  | Ok [VFloat dlon; VFloat dlat] => construct_rect_grid dlon dlat
  | Ok _ => w_raise (TypeError "unsupported operand type(s)")
  end.

Section RandomState.

(** The state of numpy's global generator, [np.random.seed] and one draw of
    the standard normal distribution; the rounding of [astype]. *)
Variable rng_state : Type.
Variable seed_state : Z -> rng_state.
Variable gauss : rng_state -> Q * rng_state.
Variable astype_value : np_dtype -> Q -> Q.

(** What a call can change: the generator and the warnings emitted. *)
Record world : Type := mkWorld { rng : rng_state; emitted : list warning }.

Definition M (A : Type) : Type := world -> result A * world.

Definition m_ret {A} (a : A) : M A := fun w => (Ok a, w).
Definition m_raise {A} (e : exn) : M A := fun w => (Raise e, w).
Definition m_bind {A B} (m : M A) (k : A -> M B) : M B :=
  fun w => match m w with
           | (Ok a, w') => k a w'
           | (Raise e, w') => (Raise e, w')
           end.
Definition m_lift {A} (r : result A) : M A := fun w => (r, w).
Definition m_lift_w {A} (c : W A) : M A :=
  fun w => (snd c, {| rng := rng w; emitted := emitted w ++ fst c |}).

Declare Scope m_scope.
Delimit Scope m_scope with M.
Notation "x <~ m ;; k" := (m_bind m (fun x => k))
  (at level 100, m at next level, right associativity) : m_scope.
Notation "m ;;; k" := (m_bind m (fun _ => k))
  (at level 100, right associativity) : m_scope.
Local Open Scope m_scope.

Fixpoint m_map {A B} (f : A -> M B) (l : list A) : M (list B) :=
  match l with
  | [] => m_ret []
  | x :: rest => y <~ f x ;; ys <~ m_map f rest ;; m_ret (y :: ys)
  end.

(** [np.random.seed(n)]. *)
Definition np_random_seed (n : Z) : M unit :=
  if (0 <=? n) && (n <? 2 ^ 32) then
    fun w => (Ok tt, {| rng := seed_state n; emitted := emitted w |})
  else m_raise (ValueError "Seed must be between 0 and 2**32 - 1").

(** One normal sample, [loc + scale * gauss()]. *)
Definition draw (loc scale : Q) : M Q :=
  fun w => let '(g, s) := gauss (rng w) in
           (Ok (loc + scale * g)%Q, {| rng := s; emitted := emitted w |}).

(** [np.random.normal(loc, scale, size)]. *)
Definition np_random_normal (loc scale : Q) (size : list nat) : M ndarray :=
  if Qle_bool 0 scale then
    v <~ m_map (fun _ => draw loc scale)
           (seq 0 (fold_right Nat.mul 1%nat size)) ;;
    m_ret {| shape := size; flat := v |}
  else m_raise (ValueError "scale < 0").

(** [a.astype(dtype)]. *)
Definition astype (dt : np_dtype) (a : ndarray) : ndarray :=
  {| shape := shape a; flat := map (astype_value dt) (flat a) |}.

(** One turn of the loop of [generate_random_array]: time step [n]. *)
Definition time_step (xyshape : list nat) (stats : list (Q * Q)) (n : Z)
  : M ndarray :=
  np_random_seed n ;;;
  row <~ m_map (fun x => np_random_normal (fst x) (snd x) xyshape) stats ;;
  m_ret (np_stack row).

(** [generate_random_array(xyshape, ntimes, stats, dtype="float32")]. *)
Definition generate_random_array (xyshape : list nat) (ntimes : Z)
  (stats : stats_arg) (dtype : np_dtype) : M ndarray :=
  let stats := stats_list stats in
  data <~ m_map (time_step xyshape stats) (py_range ntimes) ;;
  m_ret (astype dtype (np_stack data)).

(** The statements of [generate_ncar_dataset] that follow the construction
    of the grid [ds]. *)
Definition assemble_ncar_dataset (ds : Dataset) (stats : stats_arg)
  (startyear nyears : Z) (varname : string) (attrs : list (string * string))
  : M Dataset :=
  lat <~ m_lift (ds_get "lat" ds) ;;
  lon <~ m_lift (ds_get "lon" ds) ;;
  let xyshape := [payload_len (var_data lat); payload_len (var_data lon)] in
  tt' <~ m_lift (generate_monthly_time_axis startyear nyears "ncar") ;;
  let '(time, time_bnds) := tt' in
  let ds := ds_assign "time" time ds in
  let ds := ds_assign "time_bnds" time_bnds ds in
  let dates := map date_int (times_of time) in
  date <~ m_lift (new_DataArray (PInt dates) dt_int64
                    [("time", da_var time)]
                    [("long_name", "current date (YYYYMMDD)")]) ;;
  let ds := ds_assign "date" date ds in
  let stats := stats_list stats in
  cl <~ (if (1 <? length stats)%nat then
           c <~ m_lift ncar_hybrid_coord ;;
           let '(lev, hyam, hybm) := c in
           m_ret (Some lev,
                  ds_assign "hybm" hybm
                    (ds_assign "hyam" hyam (ds_assign "lev" lev ds)))
         else m_ret (None, ds)) ;;
  let '(lev, ds) := cl in
  data <~ generate_random_array xyshape (Z.of_nat (length (times_of time)))
            (StatsList stats) dt_float32 ;;
  let data := squeeze data in
  ds <~ (if (length (shape data) =? 4)%nat then
           levvar <~ m_lift (ds_get "lev" ds) ;;
           if (nth 1 (shape data) 0 =? payload_len (var_data levvar))%nat
           then
             match lev with
             | None => m_raise (UnboundLocalError "lev")
             | Some lev =>
                 v <~ m_lift (new_DataArray (PArray data) dt_float32
                                [("time", da_var time); ("lev", da_var lev);
                                 ("lat", lat); ("lon", lon)] attrs) ;;
                 m_ret (ds_assign varname v ds)
             end
           else
             m_raise (AssertionError
                        "Length of stats must match number of levels")
         else
           v <~ m_lift (new_DataArray (PArray data) dt_float32
                          [("time", da_var time); ("lat", lat); ("lon", lon)]
                          attrs) ;;
           m_ret (ds_assign varname v ds)) ;;
  m_lift (ds_drop "nbnds" ds).

(** [generate_ncar_dataset(stats, dlon, dlat, startyear, nyears, varname,
    attrs)]: the grid is requested with the keyword [add_attrs=True]. *)
Definition generate_ncar_dataset (stats : stats_arg) (dlon dlat : Q)
  (startyear nyears : Z) (varname : string) (attrs : list (string * string))
  : M Dataset :=
  ds <~ m_lift_w (call_construct_rect_grid [VFloat dlon; VFloat dlat]
                    [("add_attrs", VBool true)]) ;;
  assemble_ncar_dataset ds stats startyear nyears varname attrs.

End RandomState.

Arguments mkWorld {rng_state} rng emitted.
Arguments rng {rng_state} w.
Arguments emitted {rng_state} w.
Arguments m_ret {rng_state A} a w.
Arguments m_raise {rng_state A} e w.
Arguments m_bind {rng_state A B} m k w.
Arguments m_lift {rng_state A} r w.
Arguments m_lift_w {rng_state A} c w.
Arguments m_map {rng_state A B} f l.
Arguments np_random_seed {rng_state} seed_state n.
Arguments draw {rng_state} gauss loc scale.
Arguments np_random_normal {rng_state} gauss loc scale size.
Arguments time_step {rng_state} seed_state gauss xyshape stats n.
Arguments generate_random_array {rng_state} seed_state gauss astype_value
  xyshape ntimes stats dtype.
Arguments assemble_ncar_dataset {rng_state} seed_state gauss astype_value
  ds stats startyear nyears varname attrs.
Arguments generate_ncar_dataset {rng_state} seed_state gauss astype_value
  stats dlon dlat startyear nyears varname attrs.

End Synthetic.

(** ** coarseners.py: [regrid_lat_lon_dataset] *)

Module Regrid.

Import Coarseners.

(** [d[key] = value] on an attribute dictionary kept in insertion order. *)
Fixpoint attrs_set (key value : string) (a : list (string * string))
  : list (string * string) :=
  match a with
  | [] => [(key, value)]
  | (k, v) :: rest =>
      if String.eqb k key then (k, value) :: rest
      else (k, v) :: attrs_set key value rest
  end.

(** [d.get(key)]. *)
Fixpoint attrs_get (key : string) (a : list (string * string))
  : option string :=
  match a with
  | [] => None
  | (k, v) :: rest => if String.eqb k key then Some v else attrs_get key rest
  end.

(** [ds[var]]: the variable with the dimension coordinates it has in [ds]. *)
Definition ds_getitem (var : string) (ds : Dataset) : result DataArray :=
  match variables ds !! var with
  | None => Raise (KeyError var)
  | Some v =>
      Ok {| da_var := v;
            da_coords :=
              omap (fun d => if String.eqb d var then None
                             else (fun c => (d, c)) <$> variables ds !! d)
                   (dims v) |}
  end.

(** [ds[var].attrs = a]. *)
Definition ds_set_attrs (var : string) (a : list (string * string))
  (ds : Dataset) : Dataset :=
  {| variables :=
       alter (fun x => {| dims := dims x; dtype := dtype x;
                          var_data := var_data x; attrs := a;
                          encoding := encoding x |})
             var (variables ds);
     ds_attrs := ds_attrs ds |}.

Definition r_bind {A B} (r : result A) (k : A -> result B) : result B :=
  match r with
  | Ok a => k a
  | Raise e => Raise e
  end.

Fixpoint r_fold {A B} (f : A -> B -> result A) (acc : A) (l : list B)
  : result A :=
  match l with
  | [] => Ok acc
  | x :: rest => r_bind (f acc x) (fun acc' => r_fold f acc' rest)
  end.

Section Regridder.

(** xesmf: [xe.Regridder(source, target, method)] and the application of a
    regridder to one variable; the conversion of one value by [astype]. *)
Variable regridder : Type.
Variable new_regridder : Dataset -> Dataset -> string -> result regridder.
Variable apply_regridder : regridder -> DataArray -> result DataArray.
Variable astype_value : np_dtype -> Q -> Q.

(** [da.astype(dt)]. *)
Definition da_astype (dt : np_dtype) (da : DataArray) : DataArray :=
  {| da_var :=
       {| dims := dims (da_var da); dtype := dt;
          var_data :=
            match var_data (da_var da) with
            | PFloat v => PFloat (map (astype_value dt) v)
            | PArray a => PArray (Synthetic.astype astype_value dt a)
            | p => p
            end;
          attrs := attrs (da_var da); encoding := encoding (da_var da) |};
     da_coords := da_coords da |}.

(** One turn of the loop over the variables of [dset]. *)
Definition regrid_variable (rg : regridder) (dset dset_out : Dataset)
  (var : string) : result Dataset :=
  r_bind (ds_getitem var dset) (fun da =>
  let _dim := dims (da_var da) in
  if has_name "lat" _dim && has_name "lon" _dim then
    r_bind (apply_regridder rg da) (fun _regridded =>
    let dset_out :=
      ds_assign var (da_astype (dtype (da_var da)) _regridded) dset_out in
    Ok (ds_set_attrs var (attrs (da_var da)) dset_out))
  else if negb (has_name var ["lat"; "lon"]) then
    Ok (ds_assign var da dset_out)
  else Ok dset_out).

Local Open Scope W.

(** [regrid_lat_lon_dataset(dset, dlon=10.0, dlat=10.0, method="bilinear")]. *)
Definition regrid_lat_lon_dataset (dset : Dataset) (dlon dlat : Q)
  (method : string) : W Dataset :=
  dset_out <~ Synthetic.call_construct_rect_grid []
                [("dlon", VFloat dlon); ("dlat", VFloat dlat)] ;;
  rg <~ w_lift (new_regridder dset dset_out method) ;;
  dset_out <~ w_lift (r_fold (regrid_variable rg dset) dset_out
                        (Synthetic.variable_names dset)) ;;
  lat <~ w_lift (ds_getitem "lat" dset) ;;
  _ <~ w_lift (ds_getitem "lat" dset_out) ;;
  let dset_out := ds_set_attrs "lat" (attrs (da_var lat)) dset_out in
  lon <~ w_lift (ds_getitem "lon" dset) ;;
  _ <~ w_lift (ds_getitem "lon" dset_out) ;;
  let dset_out := ds_set_attrs "lon" (attrs (da_var lon)) dset_out in
  w_ret {| variables := variables dset_out;
           ds_attrs := attrs_set "coarsen_method" ("xESMF " ++ method)
                         (ds_attrs dset) |}.

End Regridder.

End Regrid.

(** ** synthetic_setup.py *)

Module Setup.

(** A call of the [os] module returns, or raises [OSError]. *)
Inductive outcome (A : Type) : Type :=
| Returned (a : A)
| OSError (msg : string).
Arguments Returned {A} a.
Arguments OSError {A} msg.

Section FileSystem.

(** The file system: [os.path.exists(path)] and [os.makedirs(path)], which
    leaves a file system behind also when it raises. *)
Variable fs : Type.
Variable path_exists : string -> fs -> bool.
Variable makedirs : string -> fs -> outcome unit * fs.

(** The file system and the lines printed so far. *)
Record os_state : Type := mkOs { files : fs; stdout : list string }.

Definition IO (A : Type) : Type := os_state -> outcome A * os_state.

Definition io_ret {A} (a : A) : IO A := fun s => (Returned a, s).

Definition io_bind {A B} (m : IO A) (k : A -> IO B) : IO B :=
  fun s =>
    match m s with
    | (Returned a, s') => k a s'
    | (OSError msg, s') => (OSError msg, s')
    end.

Definition py_print (line : string) : IO unit :=
  fun s => (Returned tt, {| files := files s; stdout := stdout s ++ [line] |}).

Definition os_path_exists (path : string) : IO bool :=
  fun s => (Returned (path_exists path (files s)), s).

Definition os_makedirs (path : string) : IO unit :=
  fun s =>
    let '(r, f) := makedirs path (files s) in
    (r, {| files := f; stdout := stdout s |}).

(** [create_output_dirs(CASENAME)]. *)
Definition create_output_dirs (CASENAME : string) : IO unit :=
  io_bind (py_print "Creating output data directories") (fun _ =>
  io_bind (os_path_exists (CASENAME ++ "/day")) (fun e =>
  io_bind (if negb e then os_makedirs (CASENAME ++ "/day") else io_ret tt)
    (fun _ =>
  if Synthetic.str_contains "NCAR" CASENAME then
    io_bind (os_path_exists (CASENAME ++ "/mon")) (fun e =>
    io_bind (if negb e then os_makedirs (CASENAME ++ "/mon") else io_ret tt)
      (fun _ =>
    io_bind (os_path_exists (CASENAME ++ "/3hr")) (fun e =>
    io_bind (if negb e then os_makedirs (CASENAME ++ "/3hr") else io_ret tt)
      (fun _ =>
    io_bind (os_path_exists (CASENAME ++ "/1hr")) (fun e =>
    if negb e then os_makedirs (CASENAME ++ "/1hr") else io_ret tt)))))
  else io_ret tt))).

End FileSystem.

Arguments mkOs {fs} files stdout.
Arguments files {fs} o.
Arguments stdout {fs} o.
Arguments io_ret {fs A} a s.
Arguments io_bind {fs A B} m k s.
Arguments py_print {fs} line s.
Arguments os_path_exists {fs} path_exists path s.
Arguments os_makedirs {fs} makedirs path s.
Arguments create_output_dirs {fs} path_exists makedirs CASENAME s.

End Setup.

(** * Vocabulary of the statements *)

(** ** Grids *)

Section GridVocabulary.

Import Coarseners.
Local Open Scope Q_scope.

(** [d] divides [total] evenly: [total] is a whole multiple of [d]. *)
Definition divides_evenly (d total : Q) : Prop :=
  exists n : Z, inject_Z n * d == total.

(** The spacing [construct_rect_grid] ends up with along an axis of [total]
    degrees, and the warnings it emits for that axis. *)
Definition adjusted_spacing (total d : Q) : xfloat :=
  if Qeq_bool (total - d * inject_Z (Qfloor (total / d))) 0 then Finite d
  else np_divide total (np_floor (total / d)).

Definition adjustment_warnings (total : Q) (text : string) (d : Q)
  : list warning :=
  if Qeq_bool (total - d * inject_Z (Qfloor (total / d))) 0 then []
  else [Warn text (np_divide total (np_floor (total / d)))].

Definition grid_of (lat lon : result (list Q)) : result Dataset :=
  match lat, lon with
  | Ok lat, Ok lon =>
      Ok {| variables := <["lon" := float_var "lon" lon]>
                           (<["lat" := float_var "lat" lat]> ∅);
            ds_attrs := [] |}
  | Raise e, _ => Raise e
  | Ok _, Raise e => Raise e
  end.

End GridVocabulary.

(** ** Time axes *)

Section TimeAxisVocabulary.

Import Synthetic.


(** The bounds a call returns (none when it raises). *)
Definition axis_bounds (startyear nyears : Z) (format : string)
  : list (DatetimeNoLeap * DatetimeNoLeap) :=
  match generate_monthly_time_axis startyear nyears format with
  | Ok (_, time_bnds) => bounds_of time_bnds
  | Raise _ => []
  end.

End TimeAxisVocabulary.

(** ** Tables, encodings and arrays *)

(** Adjacent entries are in order. *)
Fixpoint non_decreasingb (l : list Q) : bool :=
  match l with
  | [] => true
  | x :: rest =>
      match rest with
      | [] => true
      | y :: _ => Qle_bool x y && non_decreasingb rest
      end
  end.

Definition with_encoding (x : DataVar) (e : gmap string enc_value)
  : DataVar :=
  {| dims := dims x; dtype := dtype x; var_data := var_data x;
     attrs := attrs x; encoding := e |}.

(** The encoding rule as a function of the name and the dtype of a
    variable, applied to the encoding the variable had. *)
Definition encoding_rule (name : string) (dt : np_dtype)
  (e : gmap string enc_value) : gmap string enc_value :=
  if decide (name = "time" \/ name = "time_bnds") then
    <["units" := EStr "days since 1975-01-01"]> (<["dtype" := EStr "i4"]> e)
  else if decide (name = "date") then <["dtype" := EStr "i4"]> e
  else if is_float_dtype dt then <["_FillValue" := EFloat 1.0e20]> e
  else if is_int_dtype dt then <["_FillValue" := EInt (-999)]> e
  else <["_FillValue" := ENone]> e.

Definition prod_shape (s : list nat) : nat := fold_right Nat.mul 1%nat s.

(** An array of shape [s] with as many entries as the shape asks for. *)
Definition has_shape (s : list nat) (a : ndarray) : Prop :=
  shape a = s /\ length (flat a) = prod_shape s.

(** The shape of the array of one time step. *)
Definition row_shape (xyshape : list nat) (stats : list (Q * Q)) : list nat :=
  match stats with
  | [] => [0%nat]
  | _ :: _ => length stats :: xyshape
  end.

(** ** The error of the grid call, and instances to run the functions on *)

Definition unexpected_add_attrs : exn :=
  TypeError
    "construct_rect_grid() got an unexpected keyword argument 'add_attrs'".

(** A small generator to run the functions with: the state is a counter,
    seeding sets it, a draw returns it and moves it on; [astype] keeps the
    values. *)
Definition counter_seed (n : Z) : Z := n.
Definition counter_gauss (s : Z) : Q * Z := (inject_Z s, s + 1).
Definition keep_value (dt : np_dtype) (q : Q) : Q := q.

Definition counter_array (ntimes : Z) : result ndarray :=
  fst (Synthetic.generate_random_array counter_seed counter_gauss keep_value
         [1%nat; 2%nat] ntimes (Synthetic.StatsPair 0 1) dt_float32
         (Synthetic.mkWorld 0 [])).

Definition three_levels : Synthetic.stats_arg :=
  Synthetic.StatsList [(0, 1); (1, 1); (2, 1)]%Q.



(** ** Grid cells, calendar order and quiet computations *)


(** Dates in calendar order. *)
Definition date_lt (a b : DatetimeNoLeap) : Prop :=
  year a < year b
  \/ (year a = year b
      /\ (month a < month b \/ (month a = month b /\ day a < day b))).



(** ** Regridding: grid variables, and instances to run the function on *)

(** A variable on the horizontal grid: both [lat] and [lon] are among its
    dimensions. *)
Definition on_grid (x : DataVar) : bool :=
  has_name "lat" (dims x) && has_name "lon" (dims x).

(** A regridder to run [regrid_lat_lon_dataset] on: it remembers the target
    grid, and hands a variable back as [float64] on the coordinates of the
    target. *)
Definition grid_regridder (source target : Dataset) (method : string)
  : result Dataset := Ok target.

Definition grid_regrid (target : Dataset) (da : DataArray)
  : result DataArray :=
  Ok {| da_var := {| dims := dims (da_var da); dtype := dt_float64;
                     var_data := var_data (da_var da);
                     attrs := []; encoding := ∅ |};
        da_coords :=
          omap (fun d => (fun c => (d, c)) <$> variables target !! d)
               (dims (da_var da)) |}.

Definition mask_variable : DataVar :=
  {| dims := ["lat"; "lon"]; dtype := dt_int32;
     var_data := PArray {| shape := [2%nat; 2%nat]; flat := [1; 0; 0; 1]%Q |};
     attrs := [("long_name", "land mask")]; encoding := ∅ |}.

Definition plev_variable : DataVar :=
  {| dims := ["plev"]; dtype := dt_float64;
     var_data := PFloat [850; 500]%Q;
     attrs := [("units", "hPa")]; encoding := ∅ |}.

Definition source_lat : DataVar :=
  {| dims := ["lat"]; dtype := dt_float32; var_data := PFloat [-45; 45]%Q;
     attrs := [("units", "degrees_north")]; encoding := ∅ |}.

Definition source_lon : DataVar :=
  {| dims := ["lon"]; dtype := dt_float32; var_data := PFloat [90; 270]%Q;
     attrs := [("units", "degrees_east")]; encoding := ∅ |}.

Definition mask_dataset : Dataset :=
  {| variables := <["plev" := plev_variable]>
                    (<["mask" := mask_variable]>
                       (<["lon" := source_lon]>
                          (<["lat" := source_lat]> ∅)));
     ds_attrs := [("title", "land mask")] |}.

Definition regrid_mask (dlon dlat : Q) : W Dataset :=
  Regrid.regrid_lat_lon_dataset Dataset grid_regridder grid_regrid keep_value
    mask_dataset dlon dlat "bilinear".

(** ** Output directories *)

(** The directories [create_output_dirs] looks after for a case. *)
Definition output_dirs (CASENAME : string) : list string :=
  ((CASENAME ++ "/day")
     :: (if Synthetic.str_contains "NCAR" CASENAME
         then [CASENAME ++ "/mon"; CASENAME ++ "/3hr"; CASENAME ++ "/1hr"]
         else []))%string.

(** A file system to run [create_output_dirs] on: the list of the paths
    that exist. *)
Definition listed (path : string) (f : list string) : bool :=
  existsb (String.eqb path) f.

Definition list_makedirs (path : string) (f : list string)
  : Setup.outcome unit * list string :=
  if listed path f then (Setup.OSError "File exists", f)
  else (Setup.Returned tt, path :: f).

(** One guarded creation, [if not os.path.exists(path): os.makedirs(path)]. *)
Definition ensure_dir {fs : Type} (path_exists : string -> fs -> bool)
  (makedirs : string -> fs -> Setup.outcome unit * fs) (path : string)
  : Setup.IO fs unit :=
  Setup.io_bind (Setup.os_path_exists path_exists path) (fun e =>
  if negb e then Setup.os_makedirs makedirs path else Setup.io_ret tt).

Fixpoint ensure_dirs {fs : Type} (path_exists : string -> fs -> bool)
  (makedirs : string -> fs -> Setup.outcome unit * fs) (paths : list string)
  : Setup.IO fs unit :=
  match paths with
  | [] => Setup.io_ret tt
  | path :: rest =>
      Setup.io_bind (ensure_dir path_exists makedirs path)
        (fun _ => ensure_dirs path_exists makedirs rest)
  end.

Definition banner : string := "Creating output data directories".

(** A case whose [day] directory is there already. *)
Definition ncar_start : Setup.os_state (list string) :=
  Setup.mkOs ["QBOi.NCAR/day"] [].

(** * Properties *)

(** ** Numeric facts used for the grid *)

Section GridArithmetic.

Local Open Scope Q_scope.

Lemma Qeq_bool_false_iff (x y : Q) : Qeq_bool x y = false <-> ~ x == y.
Proof.
  split.
  - apply Qeq_bool_neq.
  - intros H. destruct (Qeq_bool x y) eqn:E; [|reflexivity].
    apply Qeq_bool_eq in E. contradiction.
Qed.



Lemma Qfloor_quotient (d total : Q) (n : Z) :
  ~ d == 0 -> inject_Z n * d == total -> Qfloor (total / d) = n.
Proof.
  intros Hd Hn. rewrite <- (Qfloor_Z n). apply Qfloor_comp.
  rewrite <- Hn. field. exact Hd.
Qed.

(** The test [total % d != 0] of the program decides divisibility. *)
Lemma py_mod_divides (d total : Q) :
  ~ d == 0 ->
  exists r, py_mod total d = Ok r /\ (r == 0 <-> divides_evenly d total).
Proof.
  intros Hd. unfold py_mod.
  rewrite (proj2 (Qeq_bool_false_iff d 0) Hd).
  eexists; split; [reflexivity|]. split.
  - intros Hr. exists (Qfloor (total / d)). lra.
  - intros [n Hn]. rewrite (Qfloor_quotient d total n Hd Hn). lra.
Qed.

Lemma Qfloor_zero_iff (x : Q) : Qfloor x = 0%Z <-> 0 <= x < 1.
Proof.
  pose proof (Qfloor_le x) as H1. pose proof (Qlt_floor x) as H2.
  split.
  - intros E. rewrite E in H1, H2.
    change (inject_Z 0) with 0 in H1. change (inject_Z (0 + 1)) with 1 in H2.
    split; lra.
  - intros [Ha Hb].
    assert (A : inject_Z (Qfloor x) < inject_Z 1)
      by (change (inject_Z 1) with 1; lra).
    assert (B : inject_Z 0 < inject_Z (Qfloor x + 1))
      by (change (inject_Z 0) with 0; lra).
    rewrite <- Zlt_Qlt in A, B. lia.
Qed.

(** The floor of [total / d] vanishes exactly when [d] exceeds [total]. *)
Lemma floor_quotient_zero (d total : Q) :
  0 < total -> ~ d == 0 ->
  (Qfloor (total / d) = 0%Z <-> total < d).
Proof.
  intros Ht Hd. rewrite Qfloor_zero_iff. split.
  - intros [Ha Hb].
    assert (Hpos : 0 < d).
    { destruct (Qlt_le_dec 0 d) as [|Hle]; [assumption|exfalso].
      assert (Hneg : d < 0) by (destruct (Qeq_dec d 0); [contradiction|lra]).
      assert (E : total == (total / d) * d) by (field; exact Hd).
      assert (0 <= (total / d) * (- d)) by (apply Qmult_le_0_compat; lra).
      lra. }
    assert (E : total == (total / d) * d) by (field; exact Hd).
    assert ((total / d) * d < 1 * d) by (apply Qmult_lt_compat_r; assumption).
    lra.
  - intros Hlt. assert (Hpos : 0 < d) by lra. split.
    + apply Qle_shift_div_l; lra.
    + apply Qlt_shift_div_r; lra.
Qed.

End GridArithmetic.

(** ** GridBuilder: [construct_rect_grid] *)

Section GridFacts.

Import Coarseners.
Local Open Scope Q_scope.

(** With non-zero spacings both tests are evaluated, both warnings are
    emitted before either axis is built, and the latitudes are built first. *)
Lemma construct_rect_grid_eq (dlon dlat : Q) :
  ~ dlat == 0 -> ~ dlon == 0 ->
  construct_rect_grid dlon dlat =
    ((adjustment_warnings 180 dlat_text dlat
        ++ adjustment_warnings 360 dlon_text dlon)%list,
     grid_of
       (np_arange (xadd (-90) (xhalf (adjusted_spacing 180 dlat))) 90
          (adjusted_spacing 180 dlat))
       (np_arange (xadd 0 (xhalf (adjusted_spacing 360 dlon))) 360
          (adjusted_spacing 360 dlon))).
Proof.
  intros Hlat Hlon.
  unfold construct_rect_grid, py_mod, adjustment_warnings, adjusted_spacing.
  rewrite (proj2 (Qeq_bool_false_iff dlat 0) Hlat).
  rewrite (proj2 (Qeq_bool_false_iff dlon 0) Hlon).
  cbn [w_lift w_bind].
  destruct (Qeq_bool (180 - dlat * inject_Z (Qfloor (180 / dlat))) 0);
    destruct (Qeq_bool (360 - dlon * inject_Z (Qfloor (360 / dlon))) 0);
    cbn [w_lift w_bind w_ret w_warn negb app grid_of];
    repeat match goal with
           | |- context [np_arange ?a ?b ?c] =>
               destruct (np_arange a b c);
               cbn [w_lift w_bind w_ret w_warn app grid_of]
           end;
    reflexivity.
Qed.

(** A zero latitude spacing stops the call at the first test. *)
Lemma construct_rect_grid_dlat_zero (dlon dlat : Q) :
  dlat == 0 ->
  construct_rect_grid dlon dlat = ([], Raise (ZeroDivisionError "float modulo")).
Proof.
  intros H. unfold construct_rect_grid, py_mod.
  rewrite (Qeq_eq_bool _ _ H). reflexivity.
Qed.



(** A non-zero spacing that does not exceed the axis stays finite and
    non-zero, adjusted or not. *)
Lemma adjusted_spacing_finite (total d : Q) :
  0 < total -> ~ d == 0 -> d <= total ->
  exists q, adjusted_spacing total d = Finite q /\ ~ q == 0.
Proof.
  intros Ht Hd Hle. unfold adjusted_spacing.
  destruct (Qeq_bool (total - d * inject_Z (Qfloor (total / d))) 0).
  - exists d. split; [reflexivity|assumption].
  - unfold np_divide, np_floor.
    assert (Hfl : Qfloor (total / d) <> 0%Z).
    { intros E. apply (floor_quotient_zero d total Ht Hd) in E. lra. }
    assert (Hq : ~ inject_Z (Qfloor (total / d)) == 0).
    { intros E. apply Hfl. apply inject_Z_injective. exact E. }
    rewrite (proj2 (Qeq_bool_false_iff _ 0) Hq).
    eexists; split; [reflexivity|].
    intros E. apply Hq.
    assert (E2 : total == (total / inject_Z (Qfloor (total / d)))
                          * inject_Z (Qfloor (total / d)))
      by (field; exact Hq).
    rewrite E in E2. lra.
Qed.

Lemma np_arange_finite (a stop d : Q) :
  ~ d == 0 ->
  np_arange (Finite a) stop (Finite d)
  = Ok (arange_fill a d (arange_length a stop d)).
Proof.
  intros Hd. unfold np_arange.
  rewrite (proj2 (Qeq_bool_false_iff d 0) Hd). reflexivity.
Qed.





Lemma grid_lookup_lat (lat lon : list Q) :
  (<["lon" := float_var "lon" lon]>
     (<["lat" := float_var "lat" lat]> (∅ : gmap string DataVar)))
    !! "lat" = Some (float_var "lat" lat).
Proof.
  rewrite lookup_insert_ne by discriminate. apply lookup_insert_eq.
Qed.

Lemma grid_lookup_lon (lat lon : list Q) :
  (<["lon" := float_var "lon" lon]>
     (<["lat" := float_var "lat" lat]> (∅ : gmap string DataVar)))
    !! "lon" = Some (float_var "lon" lon).
Proof. apply lookup_insert_eq. Qed.







End GridFacts.

(** ** Python slices on lists *)

Section SliceFacts.

Context {A : Type}.
Implicit Types l : list A.

Lemma py_slice_from_1 l : py_slice_from 1 l = skipn 1 l.
Proof.
  unfold py_slice_from, py_index. cbn [Z.ltb Z.compare].
  destruct l as [|x l]; [reflexivity|].
  replace (Z.to_nat (Z.min 1 (Z.of_nat (length (x :: l))))) with 1%nat
    by (cbn [length]; lia).
  reflexivity.
Qed.

(** [l[0:-k]] drops the last [k] entries. *)
Lemma py_slice_drop_last (k : positive) l :
  py_slice 0 (Z.neg k) l = firstn (length l - Pos.to_nat k) l.
Proof.
  unfold py_slice, py_index. cbn [Z.ltb Z.compare].
  replace (Z.to_nat (Z.min 0 (Z.of_nat (length l)))) with 0%nat by lia.
  replace (Z.to_nat (Z.max 0 (Z.neg k + Z.of_nat (length l))))
    with (length l - Pos.to_nat k)%nat by lia.
  rewrite Nat.sub_0_r. reflexivity.
Qed.


Lemma nth_firstn_lt (d : A) l (m i : nat) :
  (i < m)%nat -> nth i (firstn m l) d = nth i l d.
Proof.
  revert l i. induction m as [|m IH]; intros l i Hi; [lia|].
  destruct l as [|x l]; [destruct i; reflexivity|].
  destruct i as [|i]; [reflexivity|]. cbn [firstn nth]. apply IH. lia.
Qed.

(** Pairing a list with its own tail: entry [i] is [(l[i], l[i+1])]. *)
Lemma nth_combine_tail (d : A) l (i : nat) :
  (S i < length l)%nat ->
  nth i (combine (firstn (length l - 1) l) (skipn 1 l)) (d, d)
  = (nth i l d, nth (S i) l d).
Proof.
  intros Hi.
  rewrite combine_nth
    by (rewrite length_firstn, length_skipn; lia).
  f_equal.
  - apply nth_firstn_lt. lia.
  - destruct l as [|x l]; [simpl in Hi; lia|]. reflexivity.
Qed.

Lemma length_combine_tail l :
  length (combine (firstn (length l - 1) l) (skipn 1 l)) = (length l - 1)%nat.
Proof. rewrite length_combine, length_firstn, length_skipn. lia. Qed.

End SliceFacts.

(** ** TimeAxisBuilder: [generate_monthly_time_axis] *)

Section TimeAxisFacts.

Import Synthetic.
















(** Whatever bounds a call returns are a prefix of some list paired with its
    own tail. *)
Lemma axis_bounds_shape (startyear nyears : Z) (format : string) :
  exists (raw : list DatetimeNoLeap) (m : nat),
    axis_bounds startyear nyears format
    = firstn m (combine (firstn (length raw - 1) raw) (skipn 1 raw)).
Proof.
  unfold axis_bounds, generate_monthly_time_axis.
  destruct (new_DataArray (PTime _) _ _ _) as [time|e];
    [|exists [], 0%nat; reflexivity].
  match goal with
  | |- context [combine (py_slice 0 (-1) ?b) (py_slice_from 1 ?b)] =>
      set (raw := b)
  end.
  rewrite (py_slice_drop_last 1), py_slice_from_1.
  change (Pos.to_nat 1) with 1%nat.
  set (pairs := combine (firstn (length raw - 1) raw) (skipn 1 raw)).
  unfold new_DataArray.
  destruct (decide _) as [_|_]; [|exists raw, 0%nat; reflexivity].
  cbn [bounds_of da_var var_data].
  destruct (String.eqb format "ncar").
  - rewrite (py_slice_drop_last 12). eexists raw, _. reflexivity.
  - exists raw, (length pairs). symmetry. apply firstn_all.
Qed.

(** C7. In every bounds sequence that [generate_monthly_time_axis] returns,
    under either format, each bound ends where the next one starts. *)
Theorem generate_monthly_time_axis_contiguous
  (startyear nyears : Z) (format : string) (i : nat) (d : DatetimeNoLeap) :
  (S i < length (axis_bounds startyear nyears format))%nat ->
  snd (nth i (axis_bounds startyear nyears format) (d, d))
  = fst (nth (S i) (axis_bounds startyear nyears format) (d, d)).
Proof.
  destruct (axis_bounds_shape startyear nyears format) as (raw & m & ->).
  intros Hi.
  pose proof (length_combine_tail raw) as Hlen.
  rewrite length_firstn in Hi.
  rewrite !nth_firstn_lt by lia.
  rewrite !nth_combine_tail by lia.
  reflexivity.
Qed.

Lemma generate_monthly_time_axis_contiguous_witness :
  snd (nth 3 (axis_bounds 2000 2 "ncar") (mkDate 0 0 0, mkDate 0 0 0))
  = fst (nth 4 (axis_bounds 2000 2 "ncar") (mkDate 0 0 0, mkDate 0 0 0)).
Proof.
  apply (generate_monthly_time_axis_contiguous 2000 2 "ncar" 3 (mkDate 0 0 0)).
  vm_compute. lia.
Defined.

End TimeAxisFacts.

(** ** VerticalCoordinateProvider: [ncar_hybrid_coord] *)

Section HybridCoordFacts.

Import Synthetic.
Local Open Scope Q_scope.

Lemma non_decreasingb_sorted (l : list Q) :
  non_decreasingb l = true -> Sorted Qle l.
Proof.
  induction l as [|x rest IH]; [constructor|].
  destruct rest as [|y rest'].
  - intros _. repeat constructor.
  - cbn [non_decreasingb]. intros H. apply andb_prop in H as [Hxy Hrest].
    constructor; [apply IH, Hrest|].
    constructor. apply Qle_bool_imp_le, Hxy.
Qed.

Lemma sorted_nth_le (l : list Q) :
  Sorted Qle l ->
  forall i j : nat, (i <= j < length l)%nat -> nth i l 0 <= nth j l 0.
Proof.
  intros Hs. apply Sorted_StronglySorted in Hs;
    [|intros x y z; apply Qle_trans].
  induction Hs as [|x rest Hrest IH Hall]; intros i j Hij;
    [simpl in Hij; lia|].
  destruct j as [|j].
  - replace i with 0%nat by lia. apply Qle_refl.
  - destruct i as [|i].
    + cbn [nth]. rewrite List.Forall_forall in Hall. apply Hall.
      apply nth_In. simpl in Hij. lia.
    + cbn [nth]. apply IH. simpl in Hij. lia.
Qed.

(** C10. [ncar_hybrid_coord()] takes no argument and returns three
    sequences of 60 entries each; [hybm] never decreases and its first 30
    entries are zero. *)
Theorem ncar_hybrid_coord_table :
  exists lev hyam hybm,
    ncar_hybrid_coord = Ok (lev, hyam, hybm)
    /\ length (values_of lev) = 60%nat
    /\ length (values_of hyam) = 60%nat
    /\ length (values_of hybm) = 60%nat
    /\ Sorted Qle (values_of hybm)
    /\ (forall i j : nat, (i <= j < 60)%nat ->
          nth i (values_of hybm) 0 <= nth j (values_of hybm) 0)
    /\ Forall (fun x => x == 0) (firstn 30 (values_of hybm)).
Proof.
  assert (Hs : Sorted Qle hybm_values)
    by (apply non_decreasingb_sorted; vm_compute; reflexivity).
  do 3 eexists. split; [reflexivity|].
  unfold values_of. cbn [da_var var_data floats_of].
  split; [reflexivity|]. split; [reflexivity|]. split; [reflexivity|].
  split; [exact Hs|]. split.
  - intros i j Hij. apply (sorted_nth_le _ Hs). exact Hij.
  - cbn [firstn]. repeat constructor.
Qed.

End HybridCoordFacts.

(** ** NetCDFEncoder: [write_to_netcdf] *)

Section EncodingFacts.

Import Synthetic.

(** The substring tests on [str(dtype)] recognise the kind of the dtype. *)
Lemma float_in_dtype_str (dt : np_dtype) :
  str_contains "float" (dtype_str dt) = is_float_dtype dt.
Proof. destruct dt; reflexivity. Qed.

Lemma int_in_dtype_str (dt : np_dtype) :
  str_contains "int" (dtype_str dt) = is_int_dtype dt.
Proof. destruct dt; reflexivity. Qed.

Lemma set_encoding_variables (var key : string) (v : enc_value) (ds : Dataset) :
  variables (set_encoding var key v ds)
  = alter (fun x => with_encoding x (<[key := v]> (encoding x))) var
      (variables ds).
Proof. reflexivity. Qed.



Lemma encoding_rule_other (name : string) (dt : np_dtype)
  (e : gmap string enc_value) :
  name <> "time" -> name <> "time_bnds" -> name <> "date" ->
  encoding_rule name dt e
  = if is_float_dtype dt then <["_FillValue" := EFloat 1.0e20]> e
    else if is_int_dtype dt then <["_FillValue" := EInt (-999)]> e
    else <["_FillValue" := ENone]> e.
Proof.
  intros H1 H2 H3. unfold encoding_rule.
  rewrite decide_False by (intros [?|?]; contradiction).
  rewrite (decide_False (P := name = "date")) by exact H3. reflexivity.
Qed.

(** One turn of the loop changes the encoding of its own variable only,
    and by the rule. *)
Lemma encode_variable_alter (ds : Dataset) (var : string) :
  variables (encode_variable ds var)
  = alter (fun x => with_encoding x
                      (encoding_rule var (dtype x) (encoding x)))
      var (variables ds)
  /\ ds_attrs (encode_variable ds var) = ds_attrs ds.
Proof.
  unfold encode_variable.
  destruct (String.eqb var "time") eqn:E1.
  { apply String.eqb_eq in E1. subst var. split; [|reflexivity].
    rewrite !set_encoding_variables, alter_alter_eq.
    apply alter_ext. intros y _. reflexivity. }
  destruct (String.eqb var "time_bnds") eqn:E2.
  { apply String.eqb_eq in E2. subst var. split; [|reflexivity].
    rewrite !set_encoding_variables, alter_alter_eq.
    apply alter_ext. intros y _. reflexivity. }
  destruct (String.eqb var "date") eqn:E3.
  { apply String.eqb_eq in E3. subst var. split; reflexivity. }
  apply String.eqb_neq in E1, E2, E3.
  unfold dtype_of.
  destruct (variables ds !! var) as [x|] eqn:Ex.
  - rewrite float_in_dtype_str, int_in_dtype_str.
    destruct (is_float_dtype (dtype x)) eqn:Ef;
      [|destruct (is_int_dtype (dtype x)) eqn:Ei];
      (split; [|reflexivity]);
      rewrite set_encoding_variables;
      apply alter_ext; intros y Hy; rewrite Ex in Hy; injection Hy as <-;
      rewrite (encoding_rule_other var _ _ E1 E2 E3), ?Ef, ?Ei; reflexivity.
  - change (str_contains "float" "") with false.
    change (str_contains "int" "") with false.
    split; [|reflexivity]. rewrite set_encoding_variables.
    apply alter_ext. intros y Hy. rewrite Ex in Hy. discriminate Hy.
Qed.

Lemma encode_loop_lookup (names : list string) (ds : Dataset) (name : string) :
  NoDup names ->
  variables (foldl encode_variable ds names) !! name
  = if decide (name ∈ names)
    then (fun x => with_encoding x
                     (encoding_rule name (dtype x) (encoding x)))
           <$> variables ds !! name
    else variables ds !! name.
Proof.
  intros Hnd. revert ds.
  induction Hnd as [|k names Hk Hnd IH]; intros ds.
  { cbn [foldl]. rewrite decide_False by apply not_elem_of_nil. reflexivity. }
  cbn [foldl]. rewrite IH.
  destruct (encode_variable_alter ds k) as [Ev _]. rewrite Ev.
  destruct (decide (name = k)) as [->|Hne].
  - rewrite (decide_False (P := k ∈ names)) by exact Hk.
    rewrite (decide_True (P := k ∈ k :: names)) by apply list_elem_of_here.
    apply lookup_alter_eq.
  - rewrite lookup_alter_ne by congruence.
    destruct (decide (name ∈ names)) as [Hin|Hnin].
    + rewrite decide_True by (apply list_elem_of_further, Hin). reflexivity.
    + rewrite decide_False; [reflexivity|].
      intros Hin. apply elem_of_cons in Hin as [?|?]; contradiction.
Qed.

Lemma variable_names_spec (ds : Dataset) :
  NoDup (variable_names ds)
  /\ forall name, name ∈ variable_names ds <-> is_Some (variables ds !! name).
Proof.
  assert (E : variable_names ds = (map_to_list (variables ds)).*1).
  { unfold variable_names. generalize (map_to_list (variables ds)).
    intros l. induction l as [|x l IH]; [reflexivity|].
    cbn [map]. rewrite IH. reflexivity. }
  rewrite E. split; [apply NoDup_fst_map_to_list|].
  intros name. rewrite list_elem_of_fmap. split.
  - intros ([k x] & -> & Hin). apply elem_of_map_to_list in Hin.
    exists x. exact Hin.
  - intros [x Hx]. exists (name, x). split; [reflexivity|].
    apply elem_of_map_to_list. exact Hx.
Qed.


End EncodingFacts.

(** ** FieldSynthesizer: [generate_random_array] *)

Section ArrayFacts.

Import Synthetic.

Lemma slices_of_concat (s : list nat) (data : list ndarray) :
  Forall (has_shape s) data ->
  forall (pre : list Q) (j : nat),
    length pre = (j * prod_shape s)%nat ->
    map (fun i : nat =>
           {| shape := s;
              flat := firstn (prod_shape s)
                        (skipn (i * prod_shape s)
                           (pre ++ concat (map flat data))) |})
      (seq j (length data))
    = data.
Proof.
  induction 1 as [|a rest [Hs Hl] Hrest IH]; intros pre j Hpre;
    [reflexivity|].
  cbn [length seq map concat]. f_equal.
  - rewrite <- Hpre, drop_app_length.
    rewrite <- Hl, take_app_length. destruct a as [sa fa].
    cbn in Hs. subst sa. reflexivity.
  - rewrite app_assoc. apply IH.
    rewrite length_app, Hpre, Hl. lia.
Qed.

(** Stacking arrays of one shape and slicing the stack gives the arrays
    back. *)
Lemma time_slices_np_stack (s : list nat) (data : list ndarray) :
  Forall (has_shape s) data -> time_slices (np_stack data) = data.
Proof.
  intros H. destruct data as [|a rest]; [reflexivity|].
  unfold time_slices, np_stack. cbn [shape flat].
  pose proof (Forall_inv H) as [Hs _]. rewrite Hs.
  apply (slices_of_concat s (a :: rest) H [] 0). reflexivity.
Qed.

End ArrayFacts.

Section RandomFacts.

Import Synthetic.

Variable rng_state : Type.
Variable seed_state : Z -> rng_state.
Variable gauss : rng_state -> Q * rng_state.
Variable astype_value : np_dtype -> Q -> Q.

Lemma generate_random_array_eq (xyshape : list nat) (ntimes : Z)
  (stats : stats_arg) (dt : np_dtype) (w : world rng_state) :
  generate_random_array seed_state gauss astype_value xyshape ntimes stats dt w
  = match m_map (time_step seed_state gauss xyshape (stats_list stats)) (py_range ntimes) w with
    | (Ok data, w') => (Ok (astype astype_value dt (np_stack data)), w')
    | (Raise e, w') => (Raise e, w')
    end.
Proof. reflexivity. Qed.

Section MapFacts.

Context {A B : Type} (f : A -> M rng_state B).

Lemma m_map_app (l1 l2 : list A) (w : world rng_state) :
  m_map f (l1 ++ l2) w
  = match m_map f l1 w with
    | (Ok ys1, w1) =>
        match m_map f l2 w1 with
        | (Ok ys2, w2) => (Ok (ys1 ++ ys2), w2)
        | (Raise e, w2) => (Raise e, w2)
        end
    | (Raise e, w1) => (Raise e, w1)
    end.
Proof.
  revert w. induction l1 as [|x l1 IH]; intros w.
  - cbn [app m_map]. unfold m_ret.
    destruct (m_map f l2 w) as [[ys|e] w']; reflexivity.
  - cbn [app m_map]. unfold m_bind.
    destruct (f x w) as [[y|e] w1]; [|reflexivity].
    rewrite IH.
    destruct (m_map f l1 w1) as [[ys1|e] w2]; [|reflexivity].
    unfold m_ret. cbn beta iota.
    destruct (m_map f l2 w2) as [[ys2|e] w3]; reflexivity.
Qed.

Lemma m_map_Forall (P : B -> Prop) (l : list A) :
  (forall x w y w', f x w = (Ok y, w') -> P y) ->
  forall w ys w', m_map f l w = (Ok ys, w') ->
                  length ys = length l /\ Forall P ys.
Proof.
  intros Hf. induction l as [|x l IH]; intros w ys w' H.
  - cbn in H. injection H as <- _. split; [reflexivity|constructor].
  - cbn [m_map] in H. unfold m_bind in H.
    destruct (f x w) as [[y|e] w1] eqn:Ex; [|discriminate H].
    destruct (m_map f l w1) as [[ys1|e] w2] eqn:El; [|discriminate H].
    cbn in H. injection H as <- _.
    destruct (IH _ _ _ El) as [Hlen Hall].
    split; [cbn [length]; rewrite Hlen; reflexivity|].
    constructor; [eapply Hf, Ex|exact Hall].
Qed.

(** When no step can raise, the loop returns. *)
Lemma m_map_total (l : list A) :
  (forall x w, In x l -> exists y w', f x w = (Ok y, w')) ->
  forall w, exists ys w', m_map f l w = (Ok ys, w').
Proof.
  induction l as [|x l IH]; intros Hf w.
  - do 2 eexists. reflexivity.
  - cbn [m_map]. unfold m_bind.
    destruct (Hf x w (or_introl eq_refl)) as (y & w1 & ->).
    destruct (IH (fun x' w' Hin => Hf x' w' (or_intror Hin)) w1)
      as (ys & w2 & ->).
    do 2 eexists. reflexivity.
Qed.

End MapFacts.

(** A draw of [np.random.normal] has the requested shape. *)
Lemma np_random_normal_shape (loc scale : Q) (size : list nat)
  (w : world rng_state) (a : ndarray) (w' : world rng_state) :
  np_random_normal gauss loc scale size w = (Ok a, w') ->
  has_shape size a.
Proof.
  unfold np_random_normal. destruct (Qle_bool 0 scale); [|discriminate].
  unfold m_bind.
  destruct (m_map _ _ w) as [[v|e] w1] eqn:Ev; [|discriminate].
  cbn. intros H. injection H as <- _.
  destruct (m_map_Forall _ (fun _ => True) _ (fun _ _ _ _ _ => I) _ _ _ Ev)
    as [Hlen _].
  split; [reflexivity|]. cbn [flat]. rewrite Hlen, length_seq. reflexivity.
Qed.

Lemma length_concat_uniform {X} (ls : list (list X)) (n : nat) :
  Forall (fun l => length l = n) ls ->
  length (concat ls) = (length ls * n)%nat.
Proof.
  induction 1 as [|l ls Hl _ IH]; [reflexivity|].
  cbn [concat length]. rewrite length_app, Hl, IH. lia.
Qed.

Lemma np_stack_shape (s : list nat) (row : list ndarray) :
  Forall (has_shape s) row ->
  has_shape (match row with [] => [0%nat] | _ :: _ => length row :: s end)
    (np_stack row).
Proof.
  intros H. destruct row as [|a rest]; [split; reflexivity|].
  pose proof (Forall_inv H) as [Hs _].
  split; [cbn; rewrite Hs; reflexivity|].
  unfold np_stack. cbn [flat prod_shape fold_right].
  rewrite (length_concat_uniform _ (prod_shape s)).
  - rewrite length_map. reflexivity.
  - apply List.Forall_map. eapply List.Forall_impl; [|exact H].
    intros b [_ Hb]. exact Hb.
Qed.

Lemma time_step_shape (xyshape : list nat) (stats : list (Q * Q)) (n : Z)
  (w : world rng_state) (row : ndarray) (w' : world rng_state) :
  time_step seed_state gauss xyshape stats n w = (Ok row, w') ->
  has_shape (row_shape xyshape stats) row.
Proof.
  unfold time_step, m_bind.
  destruct (np_random_seed seed_state n w) as [[[]|e] w1]; [|discriminate].
  destruct (m_map _ stats w1) as [[arrs|e] w2] eqn:Ea; [|discriminate].
  cbn. intros H. injection H as <- _.
  destruct (m_map_Forall _ (has_shape xyshape) stats
              (fun x w y w' => np_random_normal_shape _ _ _ w y w') _ _ _ Ea)
    as [Hlen Hall].
  pose proof (np_stack_shape xyshape arrs Hall) as Hst.
  unfold row_shape. destruct stats as [|x stats]; destruct arrs as [|a arrs];
    try (cbn in Hlen; discriminate Hlen); [exact Hst|].
  rewrite <- Hlen. exact Hst.
Qed.

Lemma time_slices_astype (dt : np_dtype) (a : ndarray) :
  time_slices (astype astype_value dt a)
  = map (astype astype_value dt) (time_slices a).
Proof.
  unfold time_slices, astype. cbn [shape flat].
  destruct (shape a) as [|n rest]; [reflexivity|].
  rewrite map_map. apply map_ext. intros i.
  cbn [shape flat]. rewrite <- firstn_map, <- skipn_map. reflexivity.
Qed.

(** Every time step starts by seeding the generator with its own index:
    what it returns does not depend on the state it finds. *)
Lemma time_step_seeded (xyshape : list nat) (stats : list (Q * Q)) (n : Z)
  (s1 s2 : rng_state) (ws : list warning) :
  fst (time_step seed_state gauss xyshape stats n (mkWorld s1 ws))
  = fst (time_step seed_state gauss xyshape stats n (mkWorld s2 ws))
  /\ (is_ok (fst (time_step seed_state gauss xyshape stats n (mkWorld s1 ws))) = true ->
      time_step seed_state gauss xyshape stats n (mkWorld s1 ws)
      = time_step seed_state gauss xyshape stats n (mkWorld s2 ws)).
Proof.
  unfold time_step, m_bind, np_random_seed.
  destruct ((0 <=? n) && (n <? 2 ^ 32)).
  - cbn [emitted]. split; reflexivity.
  - unfold m_raise. cbn. split; [reflexivity|discriminate].
Qed.

Lemma time_steps_seeded (xyshape : list nat) (stats : list (Q * Q))
  (l : list Z) (s1 s2 : rng_state) (ws : list warning) :
  fst (m_map (time_step seed_state gauss xyshape stats) l (mkWorld s1 ws))
  = fst (m_map (time_step seed_state gauss xyshape stats) l (mkWorld s2 ws)).
Proof.
  destruct l as [|n l]; [reflexivity|].
  cbn [m_map]. unfold m_bind.
  destruct (time_step_seeded xyshape stats n s1 s2 ws) as [Hf Hok].
  destruct (time_step seed_state gauss xyshape stats n (mkWorld s1 ws)) as [[y|e] w1] eqn:E1.
  - rewrite <- (Hok eq_refl). reflexivity.
  - destruct (time_step seed_state gauss xyshape stats n (mkWorld s2 ws)) as [[y|e'] w2].
    + discriminate Hf.
    + cbn in Hf. injection Hf as ->. reflexivity.
Qed.

Lemma py_range_split (m n : Z) :
  m <= n ->
  py_range n
  = py_range m ++ map Z.of_nat (seq (Z.to_nat m) (Z.to_nat n - Z.to_nat m)).
Proof.
  intros H. unfold py_range. rewrite <- map_app, <- seq_app.
  do 2 f_equal. lia.
Qed.

Lemma draws_total (loc scale : Q) (l : list nat) (w : world rng_state) :
  exists v w', m_map (fun _ => draw gauss loc scale) l w = (Ok v, w').
Proof.
  apply m_map_total. intros x w0 _. unfold draw.
  destruct (gauss (rng w0)) as [g s]. do 2 eexists. reflexivity.
Qed.

Lemma astype_np_stack_shape (dt : np_dtype) (s : list nat)
  (data : list ndarray) :
  Forall (has_shape s) data -> (1 <= length data)%nat ->
  shape (astype astype_value dt (np_stack data)) = length data :: s.
Proof.
  intros H Hlen. destruct data as [|a rest]; [simpl in Hlen; lia|].
  pose proof (Forall_inv H) as [Hs _].
  cbn [astype np_stack shape]. rewrite Hs. reflexivity.
Qed.

Lemma generate_random_array_slices (xyshape : list nat) (ntimes : Z)
  (stats : stats_arg) (dt : np_dtype) (w : world rng_state) (a : ndarray) :
  fst (generate_random_array seed_state gauss astype_value
         xyshape ntimes stats dt w) = Ok a ->
  exists data w',
    m_map (time_step seed_state gauss xyshape (stats_list stats)) (py_range ntimes) w
    = (Ok data, w')
    /\ a = astype astype_value dt (np_stack data)
    /\ length data = Z.to_nat ntimes
    /\ Forall (has_shape (row_shape xyshape (stats_list stats))) data
    /\ time_slices a = map (astype astype_value dt) data.
Proof.
  rewrite generate_random_array_eq.
  destruct (m_map _ (py_range ntimes) w) as [[data|e] w'] eqn:E;
    [|discriminate].
  cbn [fst]. intros H. injection H as <-.
  destruct (m_map_Forall _ _ _
              (fun x w y w' => time_step_shape xyshape _ x w y w') _ _ _ E)
    as [Hlen Hall].
  exists data, w'. split; [reflexivity|]. split; [reflexivity|].
  split; [rewrite Hlen; unfold py_range; rewrite length_map, length_seq;
          reflexivity|].
  split; [exact Hall|].
  rewrite time_slices_astype, (time_slices_np_stack _ _ Hall). reflexivity.
Qed.

(** C3. [generate_random_array] is deterministic and prefix-stable.  What
    it returns does not depend on the state of the global generator it is
    called in; when the call for [n] time steps returns, the call for
    [m <= n] time steps returns too, and its slices along the time axis
    are the first [m] slices of the longer array (for [m >= 1] both arrays
    have the shape of one time step after their first axis); and the call
    returns whenever no standard deviation is negative and the seeds fit in
    32 bits. *)
Theorem generate_random_array_deterministic_prefix :
  (forall (xyshape : list nat) (ntimes : Z) (stats : stats_arg)
          (dt : np_dtype) (s1 s2 : rng_state) (ws : list warning),
      fst (generate_random_array seed_state gauss astype_value
             xyshape ntimes stats dt (mkWorld s1 ws))
      = fst (generate_random_array seed_state gauss astype_value
               xyshape ntimes stats dt (mkWorld s2 ws)))
  /\ (forall (xyshape : list nat) (m n : Z) (stats : stats_arg)
             (dt : np_dtype) (w : world rng_state) (a : ndarray),
         m <= n ->
         fst (generate_random_array seed_state gauss astype_value
                xyshape n stats dt w) = Ok a ->
         exists a',
           fst (generate_random_array seed_state gauss astype_value
                  xyshape m stats dt w) = Ok a'
           /\ length (time_slices a) = Z.to_nat n
           /\ time_slices a' = firstn (Z.to_nat m) (time_slices a)
           /\ (1 <= m ->
               shape a = Z.to_nat n :: row_shape xyshape (stats_list stats)
               /\ shape a'
                  = Z.to_nat m :: row_shape xyshape (stats_list stats)))
  /\ (forall (xyshape : list nat) (ntimes : Z) (stats : stats_arg)
             (dt : np_dtype) (w : world rng_state),
         ntimes <= 2 ^ 32 ->
         Forall (fun x => (0 <= snd x)%Q) (stats_list stats) ->
         is_ok (fst (generate_random_array seed_state gauss astype_value
                       xyshape ntimes stats dt w)) = true).
Proof.
  split; [|split].
  - intros xyshape ntimes stats dt s1 s2 ws.
    rewrite !generate_random_array_eq.
    pose proof (time_steps_seeded xyshape (stats_list stats)
                  (py_range ntimes) s1 s2 ws) as H.
    destruct (m_map _ _ (mkWorld s1 ws)) as [[d1|e1] w1];
      destruct (m_map _ _ (mkWorld s2 ws)) as [[d2|e2] w2];
      cbn in H |- *; congruence.
  - intros xyshape m n stats dt w a Hmn Ha.
    destruct (generate_random_array_slices _ _ _ _ _ _ Ha)
      as (data & w' & Ed & -> & Hlen & Hall & Hsl).
    rewrite (py_range_split m n Hmn), m_map_app in Ed.
    destruct (m_map _ (py_range m) w) as [[dm|e] w1] eqn:Em;
      [|discriminate Ed].
    destruct (m_map _ (map Z.of_nat _) w1) as [[dr|e] w2]; [|discriminate Ed].
    injection Ed as <- _.
    assert (Ham : fst (generate_random_array seed_state gauss astype_value
                         xyshape m stats dt w)
                  = Ok (astype astype_value dt (np_stack dm)))
      by (rewrite generate_random_array_eq, Em; reflexivity).
    destruct (generate_random_array_slices _ _ _ _ _ _ Ham)
      as (dm' & w1' & Em' & _ & Hlm & Hallm & Hslm).
    rewrite Em in Em'. injection Em' as <- _.
    eexists. split; [exact Ham|].
    rewrite Hsl, Hslm, length_map, Hlen.
    split; [reflexivity|]. split.
    + rewrite <- Hlm, firstn_map, take_app_length. reflexivity.
    + intros Hm.
      rewrite (astype_np_stack_shape _ _ _ Hall) by lia.
      rewrite (astype_np_stack_shape _ _ _ Hallm) by lia.
      rewrite Hlen, Hlm. split; reflexivity.
  - intros xyshape ntimes stats dt w Hn Hst.
    rewrite generate_random_array_eq.
    assert (Hrow : forall w1,
              exists row w2,
                m_map (fun x => np_random_normal gauss (fst x) (snd x) xyshape)
                  (stats_list stats) w1 = (Ok row, w2)).
    { apply m_map_total. intros x w1 Hx. unfold np_random_normal, m_bind.
      rewrite List.Forall_forall in Hst.
      rewrite (proj2 (Qle_bool_iff 0 (snd x))) by (apply Hst, Hx).
      destruct (draws_total (fst x) (snd x)
                  (seq 0 (fold_right Nat.mul 1%nat xyshape)) w1)
        as (v & w2 & ->).
      do 2 eexists. reflexivity. }
    assert (Hstep : forall n w0,
              In n (py_range ntimes) ->
              exists y w', time_step seed_state gauss xyshape (stats_list stats) n w0
                           = (Ok y, w')).
    { intros n w0 Hin. unfold py_range in Hin.
      apply in_map_iff in Hin as (i & <- & Hi). apply in_seq in Hi.
      unfold time_step, m_bind, np_random_seed.
      replace ((0 <=? Z.of_nat i) && (Z.of_nat i <? 2 ^ 32)) with true
        by (symmetry; apply andb_true_intro; split;
            [apply Z.leb_le | apply Z.ltb_lt]; lia).
      match goal with
      | |- context [m_map _ (stats_list stats) ?w1] =>
          destruct (Hrow w1) as (row & w2 & ->)
      end.
      do 2 eexists. reflexivity. }
    destruct (m_map_total _ _ Hstep w) as (data & w' & ->). reflexivity.
Qed.

(** ** DatasetAssembler: [generate_ncar_dataset] *)

(** [construct_rect_grid(dlon, dlat)] has no parameter [add_attrs]: the
    call is refused before the body runs. *)
Lemma call_construct_rect_grid_add_attrs (dlon dlat : Q) :
  call_construct_rect_grid [VFloat dlon; VFloat dlat]
    [("add_attrs", VBool true)]
  = ([], Raise unexpected_add_attrs).
Proof. reflexivity. Qed.

Lemma generate_ncar_dataset_raises (stats : stats_arg) (dlon dlat : Q)
  (startyear nyears : Z) (varname : string) (attrs : list (string * string))
  (w : world rng_state) :
  generate_ncar_dataset seed_state gauss astype_value
    stats dlon dlat startyear nyears varname attrs w
  = (Raise unexpected_add_attrs, w).
Proof.
  unfold generate_ncar_dataset, m_bind, m_lift_w.
  rewrite call_construct_rect_grid_add_attrs. cbn [fst snd].
  rewrite app_nil_r. destruct w. reflexivity.
Qed.

Lemma ds_assign_lookup_same (name : string) (da : DataArray) (ds : Dataset) :
  variables (ds_assign name da ds) !! name = Some (da_var da).
Proof. unfold ds_assign, ds_set. cbn [variables]. apply lookup_insert_eq. Qed.

Lemma ds_assign_lookup_other (name : string) (da : DataArray) (ds : Dataset)
  (k : string) (x : DataVar) :
  k <> name -> variables ds !! k = Some x ->
  variables (ds_assign name da ds) !! k = Some x.
Proof.
  intros Hne Hk. unfold ds_assign, ds_set. cbn [variables].
  rewrite lookup_insert_ne by congruence.
  induction (da_coords da) as [|c cs IH]; [exact Hk|].
  cbn [foldr]. destruct (variables _ !! fst c) eqn:Ec; [exact IH|].
  cbn [variables]. rewrite lookup_insert_ne; [exact IH|].
  intros E. rewrite E, IH in Ec. discriminate Ec.
Qed.

Lemma time_axis_payload (startyear nyears : Z) (format : string)
  (time time_bnds : DataArray) :
  generate_monthly_time_axis startyear nyears format = Ok (time, time_bnds) ->
  var_data (da_var time) = PTime (times_of time).
Proof.
  unfold generate_monthly_time_axis, new_DataArray.
  destruct (decide _); [|discriminate].
  destruct (decide _); [|discriminate].
  intros H. injection H as <- _. reflexivity.
Qed.

Lemma hybrid_coord_levels (lev hyam hybm : DataArray) :
  ncar_hybrid_coord = Ok (lev, hyam, hybm) ->
  payload_len (var_data (da_var lev)) = 60%nat.
Proof. intros H. injection H as <- _ _. reflexivity. Qed.

(** Whatever grid the first statement had produced, a list of more than one
    statistics pair whose length is not the number of levels stops the
    remaining statements with an error. *)
Lemma assemble_ncar_dataset_mismatch (ds : Dataset) (stats : stats_arg)
  (startyear nyears : Z) (varname : string) (attrs : list (string * string))
  (w : world rng_state) :
  (1 < length (stats_list stats))%nat ->
  length (stats_list stats) <> 60%nat ->
  exists e w',
    assemble_ncar_dataset seed_state gauss astype_value
      ds stats startyear nyears varname attrs w = (Raise e, w').
Proof.
  intros Hmulti Hmis.
  unfold assemble_ncar_dataset, m_bind, m_lift.
  destruct (ds_get "lat" ds) as [lat|e]; [|eauto].
  destruct (ds_get "lon" ds) as [lon|e]; [|eauto].
  destruct (generate_monthly_time_axis startyear nyears "ncar")
    as [[time time_bnds]|e] eqn:Eaxis; [|eauto].
  pose proof (time_axis_payload _ _ _ _ _ Eaxis) as Etime.
  destruct (new_DataArray (PInt _) _ _ _) as [date|e]; [|eauto].
  rewrite (proj2 (Nat.ltb_lt _ _) Hmulti).
  destruct ncar_hybrid_coord as [[[lev hyam] hybm]|e] eqn:Eh; [|eauto].
  pose proof (hybrid_coord_levels _ _ _ Eh) as Hlev.
  unfold m_ret.
  set (xyshape := [payload_len (var_data lat); payload_len (var_data lon)]).
  set (T := length (times_of time)).
  destruct (generate_random_array _ _ _ xyshape _ _ _ w)
    as [[data|e] w1] eqn:Eg; [|eauto].
  assert (Ha : fst (generate_random_array seed_state gauss astype_value
                      xyshape (Z.of_nat T)
                      (StatsList (stats_list stats)) dt_float32 w) = Ok data)
    by (rewrite Eg; reflexivity).
  destruct (generate_random_array_slices _ _ _ _ _ _ Ha)
    as (rows & w' & _ & -> & Hlen & Hall & _).
  rewrite Nat2Z.id in Hlen. cbn [stats_list] in Hall.
  set (ds1 := ds_assign "hybm" hybm _).
  assert (Elev : ds_get "lev" ds1 = Ok (da_var lev)).
  { unfold ds_get, ds1.
    rewrite (ds_assign_lookup_other _ _ _ "lev" (da_var lev));
      [reflexivity | discriminate |].
    rewrite (ds_assign_lookup_other _ _ _ "lev" (da_var lev));
      [reflexivity | discriminate |].
    apply ds_assign_lookup_same. }
  assert (Eshape :
    shape (astype astype_value dt_float32 (np_stack rows))
    = match rows with
      | [] => [0%nat]
      | _ :: _ => [T; length (stats_list stats);
                   payload_len (var_data lat); payload_len (var_data lon)]
      end).
  { destruct rows as [|r rows]; [reflexivity|].
    pose proof (Forall_inv Hall) as [Hs _].
    cbn [astype np_stack shape]. rewrite Hs, Hlen. unfold row_shape.
    destruct (stats_list stats); [simpl in Hmulti; lia|reflexivity]. }
  unfold squeeze. cbn [shape flat]. rewrite Eshape.
  destruct rows as [|r rows].
  { cbn [List.filter Nat.eqb negb length]. unfold new_DataArray.
    rewrite decide_False by discriminate. do 2 eexists. reflexivity. }
  set (k := length (stats_list stats)) in *.
  set (nlat := payload_len (var_data lat)) in *.
  set (nlon := payload_len (var_data lon)) in *.
  assert (Hk1 : (k =? 1)%nat = false) by (apply Nat.eqb_neq; lia).
  cbn [List.filter]. rewrite Hk1. cbn [negb].
  destruct (T =? 1)%nat eqn:ET; destruct (nlat =? 1)%nat eqn:Elat;
    destruct (nlon =? 1)%nat eqn:Elon; cbn [negb length Nat.eqb];
    try (unfold new_DataArray; cbn [payload_shape shape map snd];
         rewrite Etime; cbn [payload_len];
         rewrite decide_False;
         [do 2 eexists; reflexivity|
          fold T nlat nlon;
          apply Nat.eqb_eq in ET || apply Nat.eqb_neq in ET;
          apply Nat.eqb_eq in Elat || apply Nat.eqb_neq in Elat;
          apply Nat.eqb_eq in Elon || apply Nat.eqb_neq in Elon;
          intros E; injection E; intros; lia]).
  rewrite Elev. cbn [nth]. rewrite Hlev.
  rewrite (proj2 (Nat.eqb_neq k 60) Hmis). do 2 eexists. reflexivity.
Qed.

(** C1. For every input, [generate_ncar_dataset] raises a [TypeError]:
    its first statement passes the keyword [add_attrs], which is not a
    parameter of [construct_rect_grid].  Nothing has happened by then: no
    warning was emitted and the generator was not touched. *)
Theorem generate_ncar_dataset_type_error
  (stats : stats_arg) (dlon dlat : Q) (startyear nyears : Z)
  (varname : string) (attrs : list (string * string))
  (w : world rng_state) :
  has_name "add_attrs" construct_rect_grid_params = false
  /\ call_construct_rect_grid [VFloat dlon; VFloat dlat]
       [("add_attrs", VBool true)]
     = ([], Raise unexpected_add_attrs)
  /\ generate_ncar_dataset seed_state gauss astype_value
       stats dlon dlat startyear nyears varname attrs w
     = (Raise unexpected_add_attrs, w).
Proof.
  split; [reflexivity|]. split.
  - apply call_construct_rect_grid_add_attrs.
  - apply generate_ncar_dataset_raises.
Qed.

(** C2. With more than one statistics pair and a number of pairs other than
    the 60 levels of the vertical coordinate, [generate_ncar_dataset] raises
    and returns no data set.  As the function stands the error is the
    [TypeError] of its first statement; the statements after it raise as
    well, whatever grid they are given. *)
Theorem generate_ncar_dataset_stats_mismatch
  (stats : stats_arg) (dlon dlat : Q) (startyear nyears : Z)
  (varname : string) (attrs : list (string * string))
  (w : world rng_state) :
  (1 < length (stats_list stats))%nat ->
  length (stats_list stats) <> 60%nat ->
  (exists e w',
     generate_ncar_dataset seed_state gauss astype_value
       stats dlon dlat startyear nyears varname attrs w = (Raise e, w'))
  /\ (forall ds : Dataset,
        exists e w',
          assemble_ncar_dataset seed_state gauss astype_value
            ds stats startyear nyears varname attrs w = (Raise e, w')).
Proof.
  intros Hmulti Hmis. split.
  - do 2 eexists. apply generate_ncar_dataset_raises.
  - intros ds. apply assemble_ncar_dataset_mismatch; assumption.
Qed.

End RandomFacts.

(** ** Instances *)

Lemma generate_random_array_deterministic_prefix_witness :
  exists a a',
    counter_array 2 = Ok a
    /\ counter_array 1 = Ok a'
    /\ length (time_slices a) = 2%nat
    /\ time_slices a' = firstn 1 (time_slices a)
    /\ shape a = [2; 1; 1; 2]%nat
    /\ shape a' = [1; 1; 1; 2]%nat.
Proof.
  destruct (counter_array 2) as [a|e] eqn:E;
    [|vm_compute in E; discriminate E].
  destruct (proj1 (proj2 (generate_random_array_deterministic_prefix
                            Z counter_seed counter_gauss keep_value))
              [1%nat; 2%nat] 1 2 (Synthetic.StatsPair 0 1) dt_float32
              (Synthetic.mkWorld 0 []) a)
    as (a' & H1 & H2 & H3 & H4); [lia | exact E |].
  destruct H4 as [H4 H5]; [lia|].
  exists a, a'. split; [reflexivity|]. split; [exact H1|].
  split; [exact H2|]. split; [exact H3|]. split; [exact H4 | exact H5].
Defined.

Lemma generate_ncar_dataset_stats_mismatch_witness :
  (exists e w',
     Synthetic.generate_ncar_dataset counter_seed counter_gauss keep_value
       three_levels 20 20 2000 2 "T" [] (Synthetic.mkWorld 0 [])
     = (Raise e, w'))
  /\ (forall ds : Dataset,
        exists e w',
          Synthetic.assemble_ncar_dataset counter_seed counter_gauss keep_value
            ds three_levels 2000 2 "T" [] (Synthetic.mkWorld 0 [])
          = (Raise e, w')).
Proof.
  apply (generate_ncar_dataset_stats_mismatch Z counter_seed counter_gauss
           keep_value three_levels 20 20 2000 2 "T" []
           (Synthetic.mkWorld 0 [])).
  - vm_compute. lia.
  - vm_compute. lia.
Defined.


(** * Further properties *)

(** ** [construct_rect_grid]: the cells of the grid, and spacings that do
    not fit *)

Section GridExtras.

Import Coarseners.
Local Open Scope Q_scope.














(** X3. A zero spacing stops the call with [ZeroDivisionError] in the
    divisibility test itself: for [dlat = 0] before anything else, for
    [dlon = 0] after the latitude spacing was examined (and its warning, if
    any, emitted). *)
Theorem construct_rect_grid_zero_spacing (dlon dlat : Q) :
  (dlat == 0 ->
   construct_rect_grid dlon dlat
   = ([], Raise (ZeroDivisionError "float modulo")))
  /\ (~ dlat == 0 -> dlon == 0 ->
      construct_rect_grid dlon dlat
      = (adjustment_warnings 180 dlat_text dlat,
         Raise (ZeroDivisionError "float modulo"))).
Proof.
  split.
  - apply construct_rect_grid_dlat_zero.
  - intros Hlat Hlon.
    unfold construct_rect_grid, py_mod, adjustment_warnings.
    rewrite (proj2 (Qeq_bool_false_iff dlat 0) Hlat).
    rewrite (Qeq_eq_bool _ _ Hlon).
    cbn [w_lift w_bind].
    destruct (Qeq_bool (180 - dlat * inject_Z (Qfloor (180 / dlat))) 0);
      reflexivity.
Qed.

Lemma construct_rect_grid_zero_spacing_witness :
  construct_rect_grid 0 50
  = (adjustment_warnings 180 dlat_text 50,
     Raise (ZeroDivisionError "float modulo")).
Proof.
  apply (proj2 (construct_rect_grid_zero_spacing 0 50));
    [discriminate | reflexivity].
Defined.

Lemma adjusted_spacing_too_wide (total d : Q) (text : string) :
  0 < total -> total < d ->
  adjusted_spacing total d = PosInf
  /\ adjustment_warnings total text d = [Warn text PosInf].
Proof.
  intros Ht Hd.
  assert (Hnz : ~ d == 0) by lra.
  assert (Hfl : Qfloor (total / d) = 0%Z)
    by (apply floor_quotient_zero; assumption).
  unfold adjusted_spacing, adjustment_warnings, np_divide, np_floor.
  rewrite Hfl. change (inject_Z 0) with 0.
  assert (E : Qeq_bool (total - d * 0) 0 = false)
    by (apply Qeq_bool_false_iff; lra).
  rewrite E. split; reflexivity.
Qed.

(** X4. A spacing wider than its axis is not corrected to a divisor: the
    warning announces the spacing [inf] and the call then raises instead of
    returning a grid. *)
Theorem construct_rect_grid_too_wide (dlon dlat : Q) :
  (180 < dlat -> ~ dlon == 0 ->
   exists ws e,
     construct_rect_grid dlon dlat = (Warn dlat_text PosInf :: ws, Raise e))
  /\ (~ dlat == 0 -> 360 < dlon ->
      exists ws e,
        construct_rect_grid dlon dlat
        = ((ws ++ [Warn dlon_text PosInf])%list, Raise e)).
Proof.
  split.
  - intros Hlat Hlon.
    rewrite (construct_rect_grid_eq dlon dlat) by lra.
    destruct (adjusted_spacing_too_wide 180 dlat dlat_text) as [Es Ew];
      [lra | assumption |].
    rewrite Es, Ew. cbn [xadd xhalf np_arange grid_of app].
    do 2 eexists. reflexivity.
  - intros Hlat Hlon.
    rewrite (construct_rect_grid_eq dlon dlat) by lra.
    destruct (adjusted_spacing_too_wide 360 dlon dlon_text) as [Es Ew];
      [lra | assumption |].
    rewrite Es, Ew. cbn [xadd xhalf np_arange].
    destruct (np_arange _ 90 _) as [lat|e]; do 2 eexists; reflexivity.
Qed.

Lemma construct_rect_grid_too_wide_witness :
  exists ws e,
    construct_rect_grid 20 200 = (Warn dlat_text PosInf :: ws, Raise e).
Proof.
  apply (proj1 (construct_rect_grid_too_wide 20 200));
    [reflexivity | discriminate].
Defined.

Lemma adjusted_spacing_negative (total d : Q) :
  0 < total -> d < 0 ->
  exists d', adjusted_spacing total d = Finite d' /\ d' < 0.
Proof.
  intros Ht Hd. unfold adjusted_spacing.
  destruct (Qeq_bool _ 0); [exists d; split; [reflexivity|assumption]|].
  assert (Hx : total / d < 0).
  { destruct (Qlt_le_dec (total / d) 0) as [|Hge]; [assumption|exfalso].
    assert (E : total == (total / d) * d) by (field; lra).
    assert (0 <= (total / d) * (- d)) by (apply Qmult_le_0_compat; lra).
    lra. }
  pose proof (Qfloor_le (total / d)) as Hfl.
  set (n := inject_Z (Qfloor (total / d))) in *.
  assert (Hn : n < 0) by lra.
  unfold np_divide, np_floor. fold n.
  rewrite (proj2 (Qeq_bool_false_iff n 0)) by lra.
  eexists. split; [reflexivity|].
  destruct (Qlt_le_dec (total / n) 0) as [|Hge]; [assumption|exfalso].
  assert (E : total == (total / n) * n) by (field; lra).
  assert (0 <= (total / n) * (- n)) by (apply Qmult_le_0_compat; lra).
  lra.
Qed.

Lemma arange_negative_step (lo hi d : Q) :
  lo < hi -> d < 0 ->
  np_arange (xadd lo (xhalf (Finite d))) hi (Finite d) = Ok [].
Proof.
  intros Hlo Hd. cbn [xadd xhalf].
  rewrite np_arange_finite by lra.
  assert (Hlen : arange_length (lo + d / 2) hi d = 0%nat).
  { unfold arange_length.
    set (x := (hi - (lo + d / 2)) / d).
    assert (Hx : x < 0).
    { destruct (Qlt_le_dec x 0) as [|Hge]; [assumption|exfalso].
      assert (E : hi - (lo + d / 2) == x * d) by (unfold x; field; lra).
      assert (Eh : d / 2 == d * (1 # 2)) by field.
      assert (0 <= x * (- d)) by (apply Qmult_le_0_compat; lra).
      lra. }
    pose proof (Qceiling_lt x) as Hc.
    assert (A : inject_Z (Qceiling x - 1) < inject_Z 0)
      by (change (inject_Z 0) with 0; lra).
    rewrite <- Zlt_Qlt in A. lia. }
  rewrite Hlen. reflexivity.
Qed.

(** X5. A negative spacing is accepted without an error and gives an axis
    with no entries: the call still returns a data set, whose [lat] (or
    [lon]) is empty. *)
Theorem construct_rect_grid_negative_spacing (dlon dlat : Q) :
  ~ dlat == 0 -> dlat <= 180 -> ~ dlon == 0 -> dlon <= 360 ->
  exists ws ds lat lon,
    construct_rect_grid dlon dlat = (ws, Ok ds)
    /\ variables ds !! "lat" = Some (float_var "lat" lat)
    /\ variables ds !! "lon" = Some (float_var "lon" lon)
    /\ (dlat < 0 -> lat = [])
    /\ (dlon < 0 -> lon = []).
Proof.
  intros Hlat Hlat' Hlon Hlon'.
  rewrite (construct_rect_grid_eq dlon dlat Hlat Hlon).
  destruct (adjusted_spacing_finite 180 dlat) as (p & Ep & Hp);
    [lra | assumption | assumption |].
  destruct (adjusted_spacing_finite 360 dlon) as (q & Eq & Hq);
    [lra | assumption | assumption |].
  rewrite Ep, Eq. cbn [xadd xhalf].
  rewrite (np_arange_finite _ 90 p Hp), (np_arange_finite _ 360 q Hq).
  cbn [grid_of]. do 4 eexists. split; [reflexivity|].
  split; [apply grid_lookup_lat|]. split; [apply grid_lookup_lon|].
  split.
  - intros Hneg.
    destruct (adjusted_spacing_negative 180 dlat) as (p' & Ep' & Hp');
      [lra | assumption |].
    rewrite Ep in Ep'. injection Ep' as <-.
    pose proof (arange_negative_step (-90) 90 p ltac:(lra) Hp') as H.
    cbn [xadd xhalf] in H. rewrite np_arange_finite in H by exact Hp.
    injection H as H. exact H.
  - intros Hneg.
    destruct (adjusted_spacing_negative 360 dlon) as (q' & Eq' & Hq');
      [lra | assumption |].
    rewrite Eq in Eq'. injection Eq' as <-.
    pose proof (arange_negative_step 0 360 q ltac:(lra) Hq') as H.
    cbn [xadd xhalf] in H. rewrite np_arange_finite in H by exact Hq.
    injection H as H. exact H.
Qed.

Lemma construct_rect_grid_negative_spacing_witness :
  exists ws ds lat lon,
    construct_rect_grid 20 (-10) = (ws, Ok ds)
    /\ variables ds !! "lat" = Some (float_var "lat" lat)
    /\ variables ds !! "lon" = Some (float_var "lon" lon)
    /\ (-10 < 0 -> lat = [])
    /\ (20 < 0 -> lon = []).
Proof.
  apply (construct_rect_grid_negative_spacing 20 (-10));
    [discriminate | discriminate | discriminate | discriminate].
Defined.

End GridExtras.

(** ** [generate_monthly_time_axis]: months and their bounds *)

Section TimeAxisExtras.

Import Synthetic.








End TimeAxisExtras.

(** ** [generate_ncar_dataset]: the [date] integers *)

Section DateExtras.

Import Synthetic.

Lemma days_in_month_upper (m : Z) : noleap_days_in_month m <= 31.
Proof.
  unfold noleap_days_in_month.
  destruct m as [|p|p]; try lia.
  do 4 (destruct p as [p|p|]; try lia).
Qed.

(** X8. The integer [YYYYMMDD] built from a timestamp of year 0 or later
    gives the year, the month and the day back, and these integers are
    ordered like the dates. *)
Theorem date_int_round_trip (a b : DatetimeNoLeap) :
  0 <= year a -> valid_noleap a -> 0 <= year b -> valid_noleap b ->
  (date_int a / 10000 = year a
   /\ date_int a / 100 mod 100 = month a
   /\ date_int a mod 100 = day a)
  /\ (date_lt a b <-> date_int a < date_int b)
  /\ (date_int a = date_int b -> a = b).
Proof.
  intros Ha [Hma Hda] Hb [Hmb Hdb].
  pose proof (days_in_month_upper (month a)).
  pose proof (days_in_month_upper (month b)).
  unfold date_int, date_lt.
  rewrite (proj2 (Z.leb_le 0 (year a)) Ha), (proj2 (Z.leb_le 0 (year b)) Hb).
  destruct a as [ya ma da], b as [yb mb db]. cbn [year month day] in *.
  split; [|split].
  - repeat split; Z.to_euclidean_division_equations; lia.
  - lia.
  - intros E. assert (ya = yb /\ ma = mb /\ da = db) as (-> & -> & ->) by lia.
    reflexivity.
Qed.

Lemma date_int_round_trip_witness :
  (date_int (mkDate 1975 2 28) / 10000 = 1975
   /\ date_int (mkDate 1975 2 28) / 100 mod 100 = 2
   /\ date_int (mkDate 1975 2 28) mod 100 = 28)
  /\ (date_lt (mkDate 1975 2 28) (mkDate 1975 3 1)
      <-> date_int (mkDate 1975 2 28) < date_int (mkDate 1975 3 1))
  /\ (date_int (mkDate 1975 2 28) = date_int (mkDate 1975 3 1) ->
      mkDate 1975 2 28 = mkDate 1975 3 1).
Proof.
  apply (date_int_round_trip (mkDate 1975 2 28) (mkDate 1975 3 1));
    unfold valid_noleap; cbn; lia.
Defined.

End DateExtras.

(** ** [write_to_netcdf]: what a write changes *)

Section EncodingExtras.

Import Synthetic.

(** What the loop of [write_to_netcdf] leaves of a data set. *)
Lemma encode_loop_attrs (names : list string) (ds : Dataset) :
  ds_attrs (foldl encode_variable ds names) = ds_attrs ds.
Proof.
  revert ds. induction names as [|k names IH]; intros ds; [reflexivity|].
  cbn [foldl]. rewrite IH. apply encode_variable_alter.
Qed.

Lemma write_to_netcdf_lookup (dset_out : Dataset) (outfile : string)
  (fs : gmap string Dataset) (name : string) :
  variables (fst (write_to_netcdf dset_out outfile fs)) !! name
  = (fun x => with_encoding x (encoding_rule name (dtype x) (encoding x)))
      <$> variables dset_out !! name.
Proof.
  destruct (variable_names_spec dset_out) as [Hnd Hin].
  unfold write_to_netcdf. cbn [fst].
  rewrite (encode_loop_lookup _ _ name Hnd).
  destruct (decide (name ∈ variable_names dset_out)) as [H|H];
    [reflexivity|].
  destruct (variables dset_out !! name) as [x|] eqn:Ex; [|reflexivity].
  exfalso. apply H, Hin. exists x. exact Ex.
Qed.

Lemma encoding_rule_idempotent (name : string) (dt : np_dtype)
  (e : gmap string enc_value) :
  encoding_rule name dt (encoding_rule name dt e) = encoding_rule name dt e.
Proof.
  unfold encoding_rule.
  destruct (decide (name = "time" \/ name = "time_bnds")).
  { rewrite (insert_insert_ne _ "dtype" "units") by discriminate.
    rewrite !insert_insert_eq. reflexivity. }
  destruct (decide (name = "date")); [apply insert_insert_eq|].
  destruct (is_float_dtype dt); [apply insert_insert_eq|].
  destruct (is_int_dtype dt); apply insert_insert_eq.
Qed.

Lemma dataset_eq (a b : Dataset) :
  variables a = variables b -> ds_attrs a = ds_attrs b -> a = b.
Proof. destruct a, b. cbn. intros -> ->. reflexivity. Qed.

(** X9. Writing is idempotent on the data set: encoding a data set that
    [write_to_netcdf] has already encoded changes nothing, so the same
    data set can be written to several files. *)
Theorem write_to_netcdf_idempotent
  (dset_out : Dataset) (outfile outfile' : string)
  (fs fs' : gmap string Dataset) :
  fst (write_to_netcdf (fst (write_to_netcdf dset_out outfile fs))
         outfile' fs')
  = fst (write_to_netcdf dset_out outfile fs).
Proof.
  apply dataset_eq.
  - apply map_eq. intros name.
    rewrite write_to_netcdf_lookup, write_to_netcdf_lookup.
    destruct (variables dset_out !! name) as [x|]; [|reflexivity].
    cbn [fmap option_fmap option_map with_encoding dtype encoding].
    unfold with_encoding. cbn [dims dtype var_data attrs encoding].
    rewrite encoding_rule_idempotent. reflexivity.
  - unfold write_to_netcdf. cbn [fst]. rewrite !encode_loop_attrs.
    reflexivity.
Qed.

(** X10. [write_to_netcdf] touches encodings only.  The data set keeps its
    variables, each with its dimensions, dtype, data and attributes, and its
    global attributes; in an encoding only the keys [dtype], [units] and
    [_FillValue] can change; and no file other than [outfile] is written. *)
Theorem write_to_netcdf_preserves
  (dset_out : Dataset) (outfile : string) (fs : gmap string Dataset) :
  let written := fst (write_to_netcdf dset_out outfile fs) in
  dom (variables written) = dom (variables dset_out)
  /\ ds_attrs written = ds_attrs dset_out
  /\ (forall name x',
        variables written !! name = Some x' ->
        exists x,
          variables dset_out !! name = Some x
          /\ dims x' = dims x /\ dtype x' = dtype x
          /\ var_data x' = var_data x /\ attrs x' = attrs x
          /\ forall key,
               key <> "dtype" -> key <> "units" -> key <> "_FillValue" ->
               encoding x' !! key = encoding x !! key)
  /\ (forall other,
        other <> outfile ->
        snd (write_to_netcdf dset_out outfile fs) !! other = fs !! other).
Proof.
  intros written. split; [|split; [|split]].
  - apply set_eq. intros name. rewrite !elem_of_dom.
    unfold written. rewrite write_to_netcdf_lookup.
    destruct (variables dset_out !! name); cbn; split; intros [y Hy];
      try discriminate Hy; eauto.
  - unfold written, write_to_netcdf. cbn [fst]. apply encode_loop_attrs.
  - intros name x' Hx'. unfold written in Hx'.
    rewrite write_to_netcdf_lookup in Hx'.
    destruct (variables dset_out !! name) as [x|]; [|discriminate Hx'].
    cbn in Hx'. injection Hx' as <-. exists x.
    split; [reflexivity|]. repeat (split; [reflexivity|]).
    intros key H1 H2 H3. cbn [encoding with_encoding]. unfold encoding_rule.
    repeat match goal with
           | |- context [decide ?P] => destruct (decide P)
           | |- context [if ?b then _ else _] => destruct b
           end;
      rewrite ?lookup_insert_ne by congruence; reflexivity.
  - intros other Hne. unfold write_to_netcdf. cbn [snd].
    apply lookup_insert_ne. congruence.
Qed.

End EncodingExtras.

(** ** [generate_random_array]: shape and generator state *)

Section RandomExtras.

Import Synthetic.

Variable rng_state : Type.
Variable seed_state : Z -> rng_state.
Variable gauss : rng_state -> Q * rng_state.
Variable astype_value : np_dtype -> Q -> Q.

Lemma np_stack_has_shape (s : list nat) (data : list ndarray) :
  Forall (has_shape s) data -> (1 <= length data)%nat ->
  has_shape (length data :: s) (np_stack data).
Proof.
  intros H Hlen. pose proof (np_stack_shape s data H) as Hst.
  destruct data as [|a rest]; [simpl in Hlen; lia|exact Hst].
Qed.

(** X11. The shape of the array [generate_random_array] returns.  For
    [ntimes >= 1] it is [(ntimes, len(stats), *xyshape)] (and
    [(ntimes, 0)] for an empty list of statistics), with one entry per
    index; a single pair counts as a list of one.  For [ntimes <= 0] the
    array is empty, of shape [(0,)], and the generator is not touched. *)
Theorem generate_random_array_shape
  (xyshape : list nat) (ntimes : Z) (stats : stats_arg) (dt : np_dtype)
  (w : world rng_state) :
  (ntimes <= 0 ->
   generate_random_array seed_state gauss astype_value
     xyshape ntimes stats dt w
   = (Ok {| shape := [0%nat]; flat := [] |}, w))
  /\ (1 <= ntimes ->
      forall a,
        fst (generate_random_array seed_state gauss astype_value
               xyshape ntimes stats dt w) = Ok a ->
        shape a
        = Z.to_nat ntimes
            :: match stats_list stats with
               | [] => [0%nat]
               | _ :: _ => length (stats_list stats) :: xyshape
               end
        /\ length (flat a) = prod_shape (shape a)).
Proof.
  split.
  - intros Hn. rewrite generate_random_array_eq.
    unfold py_range. replace (Z.to_nat ntimes) with 0%nat by lia.
    reflexivity.
  - intros Hn a Ha.
    destruct (generate_random_array_slices _ _ _ _ _ _ _ _ _ _ Ha)
      as (data & w' & _ & -> & Hlen & Hall & _).
    assert (Hl : (1 <= length data)%nat) by lia.
    destruct (np_stack_has_shape _ _ Hall Hl) as [Hs Hf].
    unfold astype. cbn [shape flat]. rewrite length_map, Hs, Hf, Hlen.
    split; reflexivity.
Qed.






End RandomExtras.

Section RandomInstances.

Import Synthetic.

Lemma generate_random_array_shape_witness :
  exists a,
    counter_array 2 = Ok a
    /\ shape a = [2; 1; 1; 2]%nat
    /\ length (flat a) = prod_shape (shape a).
Proof.
  destruct (counter_array 2) as [a|e] eqn:E;
    [|vm_compute in E; discriminate E].
  exists a. split; [reflexivity|].
  apply (proj2 (generate_random_array_shape Z counter_seed counter_gauss
                  keep_value [1%nat; 2%nat] 2 (StatsPair 0 1) dt_float32
                  (mkWorld 0 []))); [lia | exact E].
Defined.


End RandomInstances.

(** ** [regrid_lat_lon_dataset] *)

Section RegridFacts.

Import Coarseners Regrid.

Variable regridder : Type.
Variable new_regridder : Dataset -> Dataset -> string -> result regridder.
Variable apply_regridder : regridder -> DataArray -> result DataArray.
Variable astype_value : np_dtype -> Q -> Q.

Lemma attrs_get_set (key value : string) (a : list (string * string)) :
  attrs_get key (attrs_set key value a) = Some value.
Proof.
  induction a as [|[k v] rest IH]; cbn [attrs_set attrs_get].
  - rewrite String.eqb_refl. reflexivity.
  - destruct (String.eqb k key) eqn:E; cbn [attrs_get]; rewrite E;
      [reflexivity|exact IH].
Qed.

Lemma attrs_get_set_other (key value k' : string)
  (a : list (string * string)) :
  k' <> key -> attrs_get k' (attrs_set key value a) = attrs_get k' a.
Proof.
  intros Hne. induction a as [|[k v] rest IH]; cbn [attrs_set attrs_get].
  - rewrite (proj2 (String.eqb_neq key k')) by congruence. reflexivity.
  - destruct (String.eqb k key) eqn:E; cbn [attrs_get].
    + apply String.eqb_eq in E. subst k.
      rewrite (proj2 (String.eqb_neq key k')) by congruence. reflexivity.
    + destruct (String.eqb k k'); [reflexivity|exact IH].
Qed.

Lemma call_with_keywords (dlon dlat : Q) :
  Synthetic.call_construct_rect_grid []
    [("dlon", VFloat dlon); ("dlat", VFloat dlat)]
  = construct_rect_grid dlon dlat.
Proof. reflexivity. Qed.

Lemma ds_set_attrs_lookup (var : string) (a : list (string * string))
  (ds : Dataset) (k : string) :
  variables (ds_set_attrs var a ds) !! k
  = if decide (k = var)
    then (fun x => {| dims := dims x; dtype := dtype x;
                      var_data := var_data x; attrs := a;
                      encoding := encoding x |}) <$> variables ds !! k
    else variables ds !! k.
Proof.
  unfold ds_set_attrs. cbn [variables].
  destruct (decide (k = var)) as [->|Hne];
    [apply lookup_alter_eq | apply lookup_alter_ne; congruence].
Qed.

(** A turn of the loop leaves the other variables that are already in the
    output alone. *)
Lemma regrid_variable_other (rg : regridder) (dset out out' : Dataset)
  (var k : string) (y : DataVar) :
  regrid_variable regridder apply_regridder astype_value rg dset out var
  = Ok out' ->
  k <> var -> variables out !! k = Some y -> variables out' !! k = Some y.
Proof.
  unfold regrid_variable, r_bind. intros H Hne Hk.
  destruct (ds_getitem var dset) as [da|e]; [|discriminate H].
  destruct (has_name "lat" _ && has_name "lon" _).
  - destruct (apply_regridder rg da) as [r|e]; [|discriminate H].
    injection H as <-. rewrite ds_set_attrs_lookup.
    rewrite decide_False by exact Hne.
    apply ds_assign_lookup_other; assumption.
  - destruct (negb (has_name var ["lat"; "lon"])); injection H as <-;
      [apply ds_assign_lookup_other; assumption | exact Hk].
Qed.

(** What a turn of the loop does to its own variable. *)
Lemma regrid_variable_self (rg : regridder) (dset out out' : Dataset)
  (var : string) (x : DataVar) :
  regrid_variable regridder apply_regridder astype_value rg dset out var
  = Ok out' ->
  variables dset !! var = Some x ->
  if on_grid x
  then exists x', variables out' !! var = Some x'
                  /\ dtype x' = dtype x /\ attrs x' = attrs x
  else if negb (has_name var ["lat"; "lon"])
       then variables out' !! var = Some x
       else out' = out.
Proof.
  unfold regrid_variable, r_bind, ds_getitem, on_grid. intros H Hx.
  rewrite Hx in H. cbn [da_var] in H.
  destruct (has_name "lat" (dims x) && has_name "lon" (dims x)).
  - destruct (apply_regridder rg _) as [r|e]; [|discriminate H].
    injection H as <-. rewrite ds_set_attrs_lookup.
    rewrite decide_True by reflexivity. rewrite ds_assign_lookup_same.
    eexists. split; [reflexivity|]. split; reflexivity.
  - destruct (negb (has_name var ["lat"; "lon"])); injection H as <-;
      [apply ds_assign_lookup_same | reflexivity].
Qed.

Lemma regrid_loop_other (rg : regridder) (dset : Dataset)
  (names : list string) (out out' : Dataset) (k : string) (y : DataVar) :
  r_fold (regrid_variable regridder apply_regridder astype_value rg dset)
    out names = Ok out' ->
  k ∉ names -> variables out !! k = Some y -> variables out' !! k = Some y.
Proof.
  revert out. induction names as [|v names IH]; intros out H Hk Hy.
  - injection H as <-. exact Hy.
  - cbn [r_fold] in H. unfold r_bind in H.
    destruct (regrid_variable _ _ _ rg dset out v) as [mid|e] eqn:Ev;
      [|discriminate H].
    apply not_elem_of_cons in Hk as [Hne Hk].
    apply (IH mid H Hk).
    apply (regrid_variable_other _ _ _ _ _ _ _ Ev Hne Hy).
Qed.

(** A variable named [lat] or [lon] that is not on the grid is skipped by
    the loop. *)
Lemma regrid_loop_skipped (rg : regridder) (dset : Dataset)
  (names : list string) (out out' : Dataset) (k : string) (y : DataVar) :
  r_fold (regrid_variable regridder apply_regridder astype_value rg dset)
    out names = Ok out' ->
  has_name k ["lat"; "lon"] = true ->
  (forall x, variables dset !! k = Some x -> on_grid x = false) ->
  variables out !! k = Some y -> variables out' !! k = Some y.
Proof.
  intros H Hname Hgrid. revert out H.
  induction names as [|v names IH]; intros out H Hy.
  - injection H as <-. exact Hy.
  - cbn [r_fold] in H. unfold r_bind in H.
    destruct (regrid_variable _ _ _ rg dset out v) as [mid|e] eqn:Ev;
      [|discriminate H].
    apply (IH mid H).
    destruct (decide (k = v)) as [->|Hne];
      [|apply (regrid_variable_other _ _ _ _ _ _ _ Ev Hne Hy)].
    destruct (variables dset !! v) as [x|] eqn:Ex.
    + pose proof (regrid_variable_self _ _ _ _ _ _ Ev Ex) as Hs.
      rewrite (Hgrid x eq_refl), Hname in Hs. cbn [negb] in Hs.
      rewrite Hs. exact Hy.
    + unfold regrid_variable, ds_getitem in Ev. rewrite Ex in Ev.
      discriminate Ev.
Qed.

Lemma regrid_loop_self (rg : regridder) (dset : Dataset)
  (names : list string) (out out' : Dataset) (k : string) (x : DataVar) :
  NoDup names -> k ∈ names ->
  r_fold (regrid_variable regridder apply_regridder astype_value rg dset)
    out names = Ok out' ->
  variables dset !! k = Some x ->
  (on_grid x = true ->
   exists x', variables out' !! k = Some x'
              /\ dtype x' = dtype x /\ attrs x' = attrs x)
  /\ (on_grid x = false -> has_name k ["lat"; "lon"] = false ->
      variables out' !! k = Some x).
Proof.
  intros Hnd. revert out.
  induction Hnd as [|v names Hv Hnd IH]; intros out Hin H Hx;
    [apply elem_of_nil in Hin; contradiction|].
  cbn [r_fold] in H. unfold r_bind in H.
  destruct (regrid_variable _ _ _ rg dset out v) as [mid|e] eqn:Ev;
    [|discriminate H].
  destruct (decide (k = v)) as [->|Hne].
  - pose proof (regrid_variable_self _ _ _ _ _ _ Ev Hx) as Hs. split.
    + intros Hg. rewrite Hg in Hs. destruct Hs as (x' & Hx' & Hd & Ha).
      exists x'. split; [|split; assumption].
      apply (regrid_loop_other _ _ _ _ _ _ _ H Hv Hx').
    + intros Hg Hname. rewrite Hg, Hname in Hs. cbn [negb] in Hs.
      apply (regrid_loop_other _ _ _ _ _ _ _ H Hv Hs).
  - apply elem_of_cons in Hin as [?|Hin]; [contradiction|].
    apply (IH mid Hin H Hx).
Qed.

(** What a successful call went through. *)
Lemma regrid_lat_lon_dataset_ok (dset : Dataset) (dlon dlat : Q)
  (method : string) (ws : list warning) (out : Dataset) :
  regrid_lat_lon_dataset regridder new_regridder apply_regridder astype_value
    dset dlon dlat method = (ws, Ok out) ->
  exists grid rg mid srclat srclon,
    construct_rect_grid dlon dlat = (ws, Ok grid)
    /\ new_regridder dset grid method = Ok rg
    /\ r_fold (regrid_variable regridder apply_regridder astype_value rg dset)
         grid (Synthetic.variable_names dset) = Ok mid
    /\ variables dset !! "lat" = Some srclat
    /\ variables dset !! "lon" = Some srclon
    /\ variables out
       = variables (ds_set_attrs "lon" (attrs srclon)
                      (ds_set_attrs "lat" (attrs srclat) mid))
    /\ ds_attrs out
       = attrs_set "coarsen_method" ("xESMF " ++ method) (ds_attrs dset).
Proof.
  unfold regrid_lat_lon_dataset. rewrite call_with_keywords.
  unfold w_bind, w_lift, w_ret.
  destruct (construct_rect_grid dlon dlat) as [ws0 [grid|e]];
    [|discriminate].
  destruct (new_regridder dset grid method) as [rg|e] eqn:Erg;
    [|discriminate].
  destruct (r_fold _ grid _) as [mid|e] eqn:Efold; [|discriminate].
  unfold ds_getitem at 1.
  destruct (variables dset !! "lat") as [srclat|] eqn:Elat; [|discriminate].
  destruct (ds_getitem "lat" mid) as [?|e]; [|discriminate].
  unfold ds_getitem at 1.
  destruct (variables dset !! "lon") as [srclon|] eqn:Elon; [|discriminate].
  destruct (ds_getitem "lon" _) as [?|e]; [|discriminate].
  cbn [da_var]. rewrite !app_nil_r. intros H. injection H as <- <-.
  exists grid, rg, mid, srclat, srclon.
  split; [reflexivity|]. split; [exact Erg|]. split; [exact Efold|].
  split; [reflexivity|]. split; [reflexivity|]. split; reflexivity.
Qed.


Lemma construct_rect_grid_ok (dlon dlat : Q) (grid : Dataset) :
  snd (construct_rect_grid dlon dlat) = Ok grid ->
  exists lat lon,
    variables grid = <["lon" := float_var "lon" lon]>
                       (<["lat" := float_var "lat" lat]> ∅).
Proof.
  unfold construct_rect_grid, py_mod.
  destruct (Qeq_bool dlat 0); [discriminate|].
  cbn [w_lift w_bind].
  destruct (Qeq_bool dlon 0).
  { destruct (negb _); cbn; discriminate. }
  destruct (negb (Qeq_bool (180 - _) 0)), (negb (Qeq_bool (360 - _) 0));
    unfold w_bind, w_lift, w_ret, w_warn;
    repeat match goal with
           | |- context [np_arange ?a ?b ?c] => destruct (np_arange a b c)
           end;
    cbn [fst snd]; intros H; try discriminate H;
    injection H as <-; do 2 eexists; reflexivity.
Qed.

Lemma regrid_lat_lon_dataset_inv (dset : Dataset) (dlon dlat : Q)
  (method : string) (out : Dataset) :
  snd (regrid_lat_lon_dataset regridder new_regridder apply_regridder
         astype_value dset dlon dlat method) = Ok out ->
  exists grid rg mid srclat srclon,
    snd (construct_rect_grid dlon dlat) = Ok grid
    /\ r_fold (regrid_variable regridder apply_regridder astype_value rg dset)
         grid (Synthetic.variable_names dset) = Ok mid
    /\ variables dset !! "lat" = Some srclat
    /\ variables dset !! "lon" = Some srclon
    /\ variables out
       = variables (ds_set_attrs "lon" (attrs srclon)
                      (ds_set_attrs "lat" (attrs srclat) mid))
    /\ ds_attrs out
       = attrs_set "coarsen_method" ("xESMF " ++ method) (ds_attrs dset).
Proof.
  destruct (regrid_lat_lon_dataset _ _ _ _ dset dlon dlat method)
    as [ws r] eqn:E.
  cbn [snd]. intros ->.
  destruct (regrid_lat_lon_dataset_ok _ _ _ _ _ _ E)
    as (grid & rg & mid & srclat & srclon & Hg & _ & Hf & H).
  exists grid, rg, mid, srclat, srclon. rewrite Hg.
  split; [reflexivity|]. split; [exact Hf|exact H].
Qed.

(** X14. The result carries the global attributes of the source, with
    [coarsen_method] set to ["xESMF " + method] (replacing a value the source
    may have had); the source attributes themselves are those of a copy. *)
Theorem regrid_lat_lon_dataset_global_attrs (dset : Dataset) (dlon dlat : Q)
  (method : string) (out : Dataset) :
  snd (regrid_lat_lon_dataset regridder new_regridder apply_regridder
         astype_value dset dlon dlat method) = Ok out ->
  attrs_get "coarsen_method" (ds_attrs out) = Some ("xESMF " ++ method)%string
  /\ forall k, k <> "coarsen_method" ->
       attrs_get k (ds_attrs out) = attrs_get k (ds_attrs dset).
Proof.
  intros H.
  destruct (regrid_lat_lon_dataset_inv _ _ _ _ _ H)
    as (grid & rg & mid & srclat & srclon & _ & _ & _ & _ & _ & ->).
  split; [apply attrs_get_set|].
  intros k Hk. apply attrs_get_set_other. exact Hk.
Qed.


(** X16. A variable of the source that has both [lat] and [lon] among its
    dimensions is in the result with the dtype and the attributes it had in
    the source, whatever dtype the regridder produced. *)
Theorem regrid_lat_lon_dataset_keeps_dtype (dset : Dataset) (dlon dlat : Q)
  (method : string) (out : Dataset) (k : string) (x : DataVar) :
  snd (regrid_lat_lon_dataset regridder new_regridder apply_regridder
         astype_value dset dlon dlat method) = Ok out ->
  variables dset !! k = Some x ->
  on_grid x = true ->
  exists x', variables out !! k = Some x'
             /\ dtype x' = dtype x /\ attrs x' = attrs x.
Proof.
  intros H Hx Hg.
  destruct (regrid_lat_lon_dataset_inv _ _ _ _ _ H)
    as (grid & rg & mid & srclat & srclon & _ & Hf & Hlat & Hlon & Hv & _).
  destruct (variable_names_spec dset) as [Hnd Hin].
  destruct (regrid_loop_self rg dset _ grid mid k x Hnd
              (proj2 (Hin k) (ex_intro _ x Hx)) Hf Hx) as [Hon _].
  destruct (Hon Hg) as (x' & Hx' & Hd & Ha).
  rewrite Hv, !ds_set_attrs_lookup.
  destruct (decide (k = "lon")) as [->|Hnlon].
  - rewrite decide_False by discriminate. rewrite Hx'. cbn.
    eexists. split; [reflexivity|]. split; [exact Hd|]. cbn. congruence.
  - destruct (decide (k = "lat")) as [->|Hnlat].
    + rewrite Hx'. cbn.
      eexists. split; [reflexivity|]. split; [exact Hd|]. cbn. congruence.
    + exists x'. split; [exact Hx'|]. split; assumption.
Qed.

(** X17. A variable of the source that has neither [lat] nor [lon] among
    its dimensions, and is not named [lat] or [lon], is in the result as
    it was in the source: dimensions, dtype, data, attributes and
    encoding. *)
Theorem regrid_lat_lon_dataset_passes_through (dset : Dataset)
  (dlon dlat : Q) (method : string) (out : Dataset) (k : string)
  (x : DataVar) :
  snd (regrid_lat_lon_dataset regridder new_regridder apply_regridder
         astype_value dset dlon dlat method) = Ok out ->
  variables dset !! k = Some x ->
  has_name "lat" (dims x) = false ->
  has_name "lon" (dims x) = false ->
  k <> "lat" -> k <> "lon" ->
  variables out !! k = Some x.
Proof.
  intros H Hx Hnlat Hnlon Hklat Hklon.
  destruct (regrid_lat_lon_dataset_inv _ _ _ _ _ H)
    as (grid & rg & mid & srclat & srclon & _ & Hf & _ & _ & Hv & _).
  destruct (variable_names_spec dset) as [Hnd Hin].
  destruct (regrid_loop_self rg dset _ grid mid k x Hnd
              (proj2 (Hin k) (ex_intro _ x Hx)) Hf Hx) as [_ Hoff].
  rewrite Hv, !ds_set_attrs_lookup.
  rewrite !decide_False by assumption.
  apply Hoff.
  - unfold on_grid. rewrite Hnlat. reflexivity.
  - unfold has_name. cbn [existsb].
    rewrite (proj2 (String.eqb_neq k "lat") Hklat).
    rewrite (proj2 (String.eqb_neq k "lon") Hklon).
    reflexivity.
Qed.

(** X18. When the source's [lat] and [lon] are one-dimensional (not on the
    grid themselves), the result's [lat] and [lon] are those of the target
    grid [construct_rect_grid(dlon, dlat)] -- values, dimension and dtype --
    with the attributes of the source's coordinates. *)
Theorem regrid_lat_lon_dataset_coordinates (dset : Dataset) (dlon dlat : Q)
  (method : string) (out grid : Dataset) (srclat srclon : DataVar) :
  snd (regrid_lat_lon_dataset regridder new_regridder apply_regridder
         astype_value dset dlon dlat method) = Ok out ->
  snd (construct_rect_grid dlon dlat) = Ok grid ->
  variables dset !! "lat" = Some srclat -> on_grid srclat = false ->
  variables dset !! "lon" = Some srclon -> on_grid srclon = false ->
  exists lat lon,
    variables grid !! "lat" = Some (float_var "lat" lat)
    /\ variables grid !! "lon" = Some (float_var "lon" lon)
    /\ variables out !! "lat"
       = Some {| dims := ["lat"]; dtype := dt_float64;
                 var_data := PFloat lat; attrs := attrs srclat;
                 encoding := ∅ |}
    /\ variables out !! "lon"
       = Some {| dims := ["lon"]; dtype := dt_float64;
                 var_data := PFloat lon; attrs := attrs srclon;
                 encoding := ∅ |}.
Proof.
  intros H Hgrid Hlat Hglat Hlon Hglon.
  destruct (regrid_lat_lon_dataset_inv _ _ _ _ _ H)
    as (grid' & rg & mid & srclat' & srclon' & Hgrid' & Hf & Hlat' & Hlon'
        & Hv & _).
  assert (grid' = grid) as -> by congruence.
  assert (srclat' = srclat) as -> by congruence.
  assert (srclon' = srclon) as -> by congruence.
  destruct (construct_rect_grid_ok _ _ _ Hgrid) as (lat & lon & Eg).
  exists lat, lon.
  assert (Glat : variables grid !! "lat" = Some (float_var "lat" lat))
    by (rewrite Eg; apply grid_lookup_lat).
  assert (Glon : variables grid !! "lon" = Some (float_var "lon" lon))
    by (rewrite Eg; apply grid_lookup_lon).
  split; [exact Glat|]. split; [exact Glon|].
  rewrite Hv, !ds_set_attrs_lookup. split.
  - rewrite decide_False by discriminate.
    rewrite decide_True by reflexivity.
    rewrite (regrid_loop_skipped rg dset _ grid mid "lat" _ Hf eq_refl
               (fun x Hx => eq_ind srclat (fun v => on_grid v = false) Hglat
                              x (Some_inj _ _ (eq_trans (eq_sym Hlat) Hx)))
               Glat).
    reflexivity.
  - rewrite decide_True by reflexivity.
    rewrite decide_False by discriminate.
    rewrite (regrid_loop_skipped rg dset _ grid mid "lon" _ Hf eq_refl
               (fun x Hx => eq_ind srclon (fun v => on_grid v = false) Hglon
                              x (Some_inj _ _ (eq_trans (eq_sym Hlon) Hx)))
               Glon).
    reflexivity.
Qed.

End RegridFacts.

Section RegridInstances.

Import Coarseners Regrid.

Lemma regrid_lat_lon_dataset_global_attrs_witness :
  exists out,
    snd (regrid_mask 90 60) = Ok out
    /\ attrs_get "coarsen_method" (ds_attrs out) = Some "xESMF bilinear"
    /\ attrs_get "title" (ds_attrs out) = Some "land mask".
Proof.
  destruct (snd (regrid_mask 90 60)) as [out|e] eqn:E;
    [|vm_compute in E; discriminate E].
  exists out. split; [reflexivity|].
  destruct (regrid_lat_lon_dataset_global_attrs Dataset grid_regridder
              grid_regrid keep_value mask_dataset 90 60 "bilinear" out E)
    as [H1 H2].
  split; [exact H1|]. rewrite H2 by discriminate. reflexivity.
Defined.


Lemma regrid_lat_lon_dataset_keeps_dtype_witness :
  exists out x',
    snd (regrid_mask 90 60) = Ok out
    /\ variables out !! "mask" = Some x'
    /\ dtype x' = dt_int32 /\ attrs x' = [("long_name", "land mask")].
Proof.
  destruct (snd (regrid_mask 90 60)) as [out|e] eqn:E;
    [|vm_compute in E; discriminate E].
  destruct (regrid_lat_lon_dataset_keeps_dtype Dataset grid_regridder
              grid_regrid keep_value mask_dataset 90 60 "bilinear" out
              "mask" mask_variable E)
    as (x' & H1 & H2 & H3); [reflexivity | reflexivity |].
  exists out, x'. split; [reflexivity|]. split; [exact H1|].
  split; [exact H2|exact H3].
Defined.

Lemma regrid_lat_lon_dataset_passes_through_witness :
  exists out,
    snd (regrid_mask 90 60) = Ok out
    /\ variables out !! "plev" = Some plev_variable.
Proof.
  destruct (snd (regrid_mask 90 60)) as [out|e] eqn:E;
    [|vm_compute in E; discriminate E].
  exists out. split; [reflexivity|].
  apply (regrid_lat_lon_dataset_passes_through Dataset grid_regridder
           grid_regrid keep_value mask_dataset 90 60 "bilinear" out
           "plev" plev_variable E);
    [reflexivity | reflexivity | reflexivity | discriminate | discriminate].
Defined.

Lemma regrid_lat_lon_dataset_coordinates_witness :
  exists out grid lat lon,
    snd (regrid_mask 90 60) = Ok out
    /\ snd (construct_rect_grid 90 60) = Ok grid
    /\ variables grid !! "lat" = Some (float_var "lat" lat)
    /\ variables grid !! "lon" = Some (float_var "lon" lon)
    /\ variables out !! "lat"
       = Some {| dims := ["lat"]; dtype := dt_float64;
                 var_data := PFloat lat; attrs := attrs source_lat;
                 encoding := ∅ |}
    /\ variables out !! "lon"
       = Some {| dims := ["lon"]; dtype := dt_float64;
                 var_data := PFloat lon; attrs := attrs source_lon;
                 encoding := ∅ |}.
Proof.
  destruct (snd (regrid_mask 90 60)) as [out|e] eqn:E;
    [|vm_compute in E; discriminate E].
  destruct (snd (construct_rect_grid 90 60)) as [grid|e] eqn:G;
    [|vm_compute in G; discriminate G].
  destruct (regrid_lat_lon_dataset_coordinates Dataset grid_regridder
              grid_regrid keep_value mask_dataset 90 60 "bilinear" out grid
              source_lat source_lon E G)
    as (lat & lon & H);
    [reflexivity | reflexivity | reflexivity | reflexivity |].
  exists out, grid, lat, lon. split; [reflexivity|]. split; [reflexivity|].
  exact H.
Defined.

End RegridInstances.

(** ** [create_output_dirs] *)

Section SetupFacts.

Import Setup.

Variable fs : Type.
Variable path_exists : string -> fs -> bool.
Variable makedirs : string -> fs -> outcome unit * fs.

(** What the directories are created with: a [makedirs] that returns has
    made its path, and no [makedirs] removes a path. *)
Hypothesis makedirs_creates : forall path f f',
  makedirs path f = (Returned tt, f') -> path_exists path f' = true.
Hypothesis makedirs_keeps : forall path f r f' q,
  makedirs path f = (r, f') ->
  path_exists q f = true -> path_exists q f' = true.

Lemma ensure_dir_spec (path : string) (s s' : os_state fs) :
  ensure_dir path_exists makedirs path s = (Returned tt, s') ->
  path_exists path (files s') = true
  /\ stdout s' = stdout s
  /\ (forall q, path_exists q (files s) = true ->
        path_exists q (files s') = true)
  /\ (path_exists path (files s) = true -> s' = s).
Proof.
  unfold ensure_dir, io_bind, os_path_exists, os_makedirs, io_ret.
  destruct (path_exists path (files s)) eqn:E; cbn [negb].
  - intros H. injection H as <-. repeat split; auto.
  - destruct (makedirs path (files s)) as [r f] eqn:M.
    intros H. injection H as -> <-. cbn [files stdout].
    split; [apply (makedirs_creates _ _ _ M)|]. split; [reflexivity|].
    split; [|discriminate].
    intros q. apply (makedirs_keeps _ _ _ _ _ M).
Qed.

Lemma ensure_dir_raises (path msg : string) (s s' : os_state fs) :
  ensure_dir path_exists makedirs path s = (OSError msg, s') ->
  path_exists path (files s) = false.
Proof.
  unfold ensure_dir, io_bind, os_path_exists, io_ret.
  destruct (path_exists path (files s)); [discriminate|reflexivity].
Qed.

Lemma create_output_dirs_eq (CASENAME : string) (s : os_state fs) :
  create_output_dirs path_exists makedirs CASENAME s
  = io_bind (py_print banner)
      (fun _ => ensure_dirs path_exists makedirs (output_dirs CASENAME)) s.
Proof.
  unfold create_output_dirs, output_dirs, banner.
  destruct (Synthetic.str_contains "NCAR" CASENAME); cbn [ensure_dirs];
    unfold ensure_dir, io_bind, py_print, os_path_exists, os_makedirs, io_ret;
    cbn [files stdout];
    repeat (match goal with
            | |- context [if negb (path_exists ?p ?f) then _ else _] =>
                destruct (path_exists p f); cbn [negb]
            | |- context [makedirs ?p ?f] =>
                destruct (makedirs p f) as [[[]|?] ?]
            end; cbn [files stdout]);
    reflexivity.
Qed.

Lemma ensure_dirs_spec (paths : list string) (s s' : os_state fs) :
  ensure_dirs path_exists makedirs paths s = (Returned tt, s') ->
  Forall (fun p => path_exists p (files s') = true) paths
  /\ stdout s' = stdout s
  /\ (forall q, path_exists q (files s) = true ->
        path_exists q (files s') = true)
  /\ (Forall (fun p => path_exists p (files s) = true) paths -> s' = s).
Proof.
  revert s. induction paths as [|p rest IH]; intros s; cbn [ensure_dirs].
  - intros H. injection H as <-. repeat split; auto.
  - unfold io_bind at 1.
    destruct (ensure_dir path_exists makedirs p s) as [[[]|msg] s1] eqn:E;
      [|discriminate].
    intros H. destruct (ensure_dir_spec _ _ _ E) as (Hp & Ho & Hk & Hs).
    destruct (IH _ H) as (Hall & Ho' & Hk' & Hs').
    split; [constructor; [apply Hk'; exact Hp | exact Hall]|].
    split; [congruence|]. split; [intros q Hq; apply Hk', Hk, Hq|].
    intros Hex. inversion Hex as [|? ? Hp0 Hrest]; subst.
    specialize (Hs Hp0). subst s1. apply Hs'. exact Hrest.
Qed.

Lemma ensure_dirs_present (paths : list string) (s : os_state fs) :
  Forall (fun p => path_exists p (files s) = true) paths ->
  ensure_dirs path_exists makedirs paths s = (Returned tt, s).
Proof.
  induction 1 as [|p rest Hp _ IH]; [reflexivity|].
  cbn [ensure_dirs]. unfold io_bind at 1, ensure_dir, io_bind.
  cbn [os_path_exists]. rewrite Hp. cbn [negb io_ret]. exact IH.
Qed.

(** X19. When [create_output_dirs] returns, every directory of the case
    exists -- [CASENAME/day], and for a case name containing [NCAR] also
    [CASENAME/mon], [CASENAME/3hr] and [CASENAME/1hr] -- every path that
    existed before still does, and one line was printed. *)
Theorem create_output_dirs_creates (CASENAME : string) (s : os_state fs) :
  fst (create_output_dirs path_exists makedirs CASENAME s) = Returned tt ->
  let s' := snd (create_output_dirs path_exists makedirs CASENAME s) in
  Forall (fun p => path_exists p (files s') = true) (output_dirs CASENAME)
  /\ (forall q, path_exists q (files s) = true ->
        path_exists q (files s') = true)
  /\ stdout s' = stdout s ++ [banner].
Proof.
  rewrite create_output_dirs_eq. unfold io_bind at 1 2. cbn [py_print].
  set (s1 := {| files := files s; stdout := stdout s ++ [banner] |}).
  destruct (ensure_dirs path_exists makedirs (output_dirs CASENAME) s1)
    as [r s2] eqn:E.
  cbn [fst snd]. intros ->.
  destruct (ensure_dirs_spec _ _ _ E) as (Hall & Ho & Hk & _).
  split; [exact Hall|]. split; [exact Hk|exact Ho].
Qed.

(** X20. A second call of [create_output_dirs] after one that returned
    finds every directory in place: it returns, leaves the file system as
    it is and only prints its line again. *)
Theorem create_output_dirs_idempotent (CASENAME : string)
  (s : os_state fs) :
  fst (create_output_dirs path_exists makedirs CASENAME s) = Returned tt ->
  let s' := snd (create_output_dirs path_exists makedirs CASENAME s) in
  create_output_dirs path_exists makedirs CASENAME s'
  = (Returned tt, {| files := files s'; stdout := stdout s' ++ [banner] |}).
Proof.
  rewrite !create_output_dirs_eq. unfold io_bind at 1 2. cbn [py_print].
  set (s1 := {| files := files s; stdout := stdout s ++ [banner] |}).
  destruct (ensure_dirs path_exists makedirs (output_dirs CASENAME) s1)
    as [r s2] eqn:E.
  cbn [fst snd]. intros ->. cbv zeta.
  rewrite create_output_dirs_eq. unfold io_bind. cbn [py_print].
  destruct (ensure_dirs_spec _ _ _ E) as (Hall & _ & _ & _).
  rewrite ensure_dirs_present; [reflexivity|exact Hall].
Qed.

End SetupFacts.

Lemma list_makedirs_creates (path : string) (f f' : list string) :
  list_makedirs path f = (Setup.Returned tt, f') -> listed path f' = true.
Proof.
  unfold list_makedirs. destruct (listed path f); [discriminate|].
  intros H. injection H as <-. unfold listed. cbn [existsb].
  rewrite String.eqb_refl. reflexivity.
Qed.

Lemma list_makedirs_keeps (path : string) (f : list string)
  (r : Setup.outcome unit) (f' : list string) (q : string) :
  list_makedirs path f = (r, f') -> listed q f = true -> listed q f' = true.
Proof.
  unfold list_makedirs. destruct (listed path f); intros H; injection H as <- <-.
  - auto.
  - intros Hq. unfold listed in *. cbn [existsb]. rewrite Hq.
    apply orb_true_r.
Qed.

Lemma create_output_dirs_creates_witness :
  Forall (fun p =>
            listed p (Setup.files
                        (snd (Setup.create_output_dirs listed list_makedirs
                                "QBOi.NCAR" ncar_start))) = true)
    (output_dirs "QBOi.NCAR")
  /\ (forall q, listed q (Setup.files ncar_start) = true ->
        listed q (Setup.files
                    (snd (Setup.create_output_dirs listed list_makedirs
                            "QBOi.NCAR" ncar_start))) = true)
  /\ Setup.stdout (snd (Setup.create_output_dirs listed list_makedirs
                          "QBOi.NCAR" ncar_start))
     = Setup.stdout ncar_start ++ [banner].
Proof.
  apply (create_output_dirs_creates (list string) listed list_makedirs
           list_makedirs_creates list_makedirs_keeps "QBOi.NCAR" ncar_start).
  vm_compute. reflexivity.
Defined.

Lemma create_output_dirs_idempotent_witness :
  Setup.create_output_dirs listed list_makedirs "QBOi.NCAR"
    (snd (Setup.create_output_dirs listed list_makedirs "QBOi.NCAR"
            ncar_start))
  = (Setup.Returned tt,
     {| Setup.files :=
          Setup.files (snd (Setup.create_output_dirs listed list_makedirs
                              "QBOi.NCAR" ncar_start));
        Setup.stdout :=
          Setup.stdout (snd (Setup.create_output_dirs listed list_makedirs
                               "QBOi.NCAR" ncar_start)) ++ [banner] |}).
Proof.
  apply (create_output_dirs_idempotent (list string) listed list_makedirs
           list_makedirs_creates list_makedirs_keeps "QBOi.NCAR" ncar_start).
  vm_compute. reflexivity.
Defined.
